(** * AdminGuesser: introspection orchestrator and resource reconciler

    A shallow embedding of [src/AdminGuesser.tsx].  The file has two
    components:

    - [AdminResourcesGuesser] (the reconciler), a function of its props that
      either shows the loading page, passes the declared children through, or
      synthesises one [<ResourceGuesser>] per resource;
    - [AdminGuesser] (the orchestrator), which owns four [useState] cells, an
      effect that calls [dataProvider.introspect()], and a memoised
      introspection capability.

    React itself is not part of the repository; the hooks the component uses
    ([useState], [useEffect], [useMemo]) are modelled by explicit state
    passing over a record that holds what React would keep on the fiber. *)

From Stdlib Require Import List String Ascii Bool Arith Lia.
Import ListNotations.
Local Open Scope string_scope.
Local Open Scope list_scope.

Set Warnings "-register-all".

(* ===================================================================== *)
(** ** JavaScript values used by the component *)
(* ===================================================================== *)

(** [Resource] of [@api-platform/api-doc-parser]; only [name] and the
    optional [deprecated] flag are read by this file. *)
Record Resource : Type := mkResource {
  name : string;
  deprecated : option bool
}.

(** JavaScript truthiness of an optional boolean: [undefined] and [false]
    are falsy. *)
Definition truthy (v : option bool) : bool :=
  match v with
  | Some true => true
  | _ => false
  end.

(** An array is an object, hence truthy whatever its length. *)
Definition array_truthy {A : Type} (_ : list A) : bool := true.

(** [a ?? b] on an optional array. *)
Definition nullish {A : Type} (a : option A) (b : A) : A :=
  match a with
  | Some x => x
  | None => b
  end.

Definition ComponentType : Type := string.

(** Components imported from [react-admin] and used as defaults. *)
Definition Loading : ComponentType := "Loading".
Definition AdminUI : ComponentType := "AdminUI".

(** A destructuring default, [x = d]. *)
Definition default {A : Type} (d : A) (x : option A) : A := nullish x d.

(* ===================================================================== *)
(** ** Declared children *)
(* ===================================================================== *)

(** The element kinds the reconciler distinguishes. *)
Inductive ElementType : Type :=
| Fragment
| CustomRoutes
| ResourceElement
| ResourceGuesser
| Component (displayName : string).

Record ElementProps : Type := mkProps {
  nameProp : option string
}.

(** A React node: nothing, text, or an element with a type, a key, props
    and nested children. *)
Inductive ReactNode : Type :=
| Empty
| Text (s : string)
| Element (type : ElementType) (key : option string)
          (props : ElementProps) (nested : list ReactNode).

(** A render function is compared by reference, so it is represented by
    its identity. *)
Inductive RenderResourcesFunction : Type :=
| FunctionRef (id : nat).

(** [AdminChildren = RenderResourcesFunction | ReactNode]; a node list
    stands for the children array. *)
Inductive AdminChildren : Type :=
| RenderFunction (f : RenderResourcesFunction)
| Nodes (items : list ReactNode).

(** Induction over nodes that reaches the nested children. *)
Section ReactNode_induction.
Variable P : ReactNode -> Prop.
Hypothesis HEmpty : P Empty.
Hypothesis HText : forall s, P (Text s).
Hypothesis HElement :
  forall ty k p cs, Forall P cs -> P (Element ty k p cs).

Fixpoint ReactNode_nested_ind (n : ReactNode) : P n :=
  match n with
  | Empty => HEmpty
  | Text s => HText s
  | Element ty k p cs =>
      HElement ty k p cs
        ((fix all (l : list ReactNode) : Forall P l :=
            match l with
            | [] => Forall_nil P
            | c :: l' => Forall_cons c (ReactNode_nested_ind c) (all l')
            end) cs)
  end.
End ReactNode_induction.

Definition isFragment (ty : ElementType) : bool :=
  match ty with Fragment => true | _ => false end.

Definition isCustomRoute (ty : ElementType) : bool :=
  match ty with CustomRoutes => true | _ => false end.

Definition isResourceDeclaration (ty : ElementType) : bool :=
  match ty with ResourceElement | ResourceGuesser => true | _ => false end.

Module Scan.
(** The object returned by [getRoutesAndResourcesFromNodes]. *)
Record t : Type := mk {
  resources : list ReactNode;
  customRoutes : list ReactNode
}.

Definition empty : t := mk [] [].

Definition pushResource (n : ReactNode) (s : t) : t :=
  mk (resources s ++ [n]) (customRoutes s).

Definition pushCustomRoute (n : ReactNode) (s : t) : t :=
  mk (resources s) (customRoutes s ++ [n]).
End Scan.

(** Modelled from the spec: [getRoutesAndResourcesFromNodes] lives in
    [./getRoutesAndResourcesFromNodes.js], which is not among the sources.
    The spec (4.2 step 2) says it partitions the children "into two groups
    by scanning the declared child element tree: recognized custom route
    elements, and recognized resource declaration elements (reused
    verbatim), each preserving original order".  The scan is one
    left-to-right pass with two growing arrays; a fragment is the tree's
    only grouping node and is descended into, a recognised element is
    pushed as it is, anything else is skipped. *)
Fixpoint scanNode (n : ReactNode) (acc : Scan.t) : Scan.t :=
  match n with
  | Empty => acc
  | Text _ => acc
  | Element ty _ _ cs =>
      if isFragment ty then
        (fix scanAll (l : list ReactNode) (a : Scan.t) : Scan.t :=
           match l with
           | [] => a
           | c :: l' => scanAll l' (scanNode c a)
           end) cs acc
      else if isCustomRoute ty then Scan.pushCustomRoute n acc
      else if isResourceDeclaration ty then Scan.pushResource n acc
      else acc
  end.

Definition scanNodes (l : list ReactNode) (acc : Scan.t) : Scan.t :=
  fold_left (fun a c => scanNode c a) l acc.

Definition getRoutesAndResourcesFromNodes (children : AdminChildren) : Scan.t :=
  match children with
  | RenderFunction _ => Scan.empty
  | Nodes items => scanNodes items Scan.empty
  end.

(** Modelled from the spec: [isSingleChildFunction] is exported by the same
    missing module.  The spec (4.2 step 3a) reads "if children is a single
    function (render-prop pattern)". *)
Definition isSingleChildFunction (children : AdminChildren) : bool :=
  match children with
  | RenderFunction _ => true
  | Nodes _ => false
  end.

(** The declared elements in document order, fragments opened up.  This is
    the reference against which the scan's order is stated. *)
Fixpoint declaredElements (n : ReactNode) : list ReactNode :=
  match n with
  | Empty => []
  | Text _ => []
  | Element ty _ _ cs =>
      if isFragment ty then flat_map declaredElements cs else [n]
  end.

Definition declaredChildren (children : AdminChildren) : list ReactNode :=
  match children with
  | RenderFunction _ => []
  | Nodes items => flat_map declaredElements items
  end.

Definition elementHas (pick : ElementType -> bool) (n : ReactNode) : bool :=
  match n with
  | Element ty _ _ _ => pick ty
  | _ => false
  end.

(* ===================================================================== *)
(** ** Calls made while rendering *)
(* ===================================================================== *)

(** The calls the two components make to their collaborators: the four
    helpers of the reconciler and [dataProvider.introspect()].  A
    computation is a value together with the log of the calls it made, in
    program order. *)
Inductive Call : Type :=
| CallUseDisplayOverrideCode
| CallGetRoutesAndResourcesFromNodes (children : AdminChildren)
| CallIsSingleChildFunction (children : AdminChildren)
| CallDisplayOverrideCode (code : string)
| CallIntrospect (dataProvider : nat).

Definition Logged (A : Type) : Type := (A * list Call)%type.

Definition ret {A : Type} (a : A) : Logged A := (a, []).

Definition bind {A B : Type} (m : Logged A) (k : A -> Logged B) : Logged B :=
  let (a, l1) := m in
  let (b, l2) := k a in
  (b, l1 ++ l2).

Definition logged {A : Type} (c : Call) (a : A) : Logged A := (a, [c]).

Declare Scope logged_scope.
Delimit Scope logged_scope with logged.
Notation "x <- m ;; k" := (bind m (fun x => k))
  (at level 61, m at next level, right associativity) : logged_scope.
Notation "m ;; k" := (bind m (fun _ => k))
  (at level 61, right associativity) : logged_scope.
Local Open Scope logged_scope.

Definition value {A : Type} (m : Logged A) : A := fst m.
Definition calls {A : Type} (m : Logged A) : list Call := snd m.

(** Modelled from the spec: [useDisplayOverrideCode] lives in
    [./useDisplayOverrideCode.js], which is not among the sources.  The
    spec (4.2 step 4) says the snippet is a "developer-facing informational
    artifact" that "has no effect on rendering".  The hook hands back the
    function that shows the snippet; calling the hook and calling that
    function are what gets logged. *)
Definition useDisplayOverrideCode : Logged (string -> Logged unit) :=
  logged CallUseDisplayOverrideCode
         (fun code => logged (CallDisplayOverrideCode code) tt).

(* ===================================================================== *)
(** ** The override snippet *)
(* ===================================================================== *)

Definition LF : string := String (ascii_of_nat 10) EmptyString.
Definition DQUOTE : string := String (ascii_of_nat 34) EmptyString.

Definition overrideHeader : string :=
  ("If you want to override at least one resource, paste this content in the <AdminGuesser> component of your app:"
   ++ LF ++ LF)%string.

Definition overrideLine (r : Resource) : string :=
  ("<ResourceGuesser name={" ++ DQUOTE ++ name r ++ DQUOTE ++ "} />" ++ LF)%string.

Definition getOverrideCode (resources : list Resource) : string :=
  fold_left (fun code r => (code ++ overrideLine r)%string)
            resources overrideHeader.

(* ===================================================================== *)
(** ** AdminResourcesGuesser *)
(* ===================================================================== *)

(** Props forwarded untouched to the admin element. *)
Inductive PropValue : Type :=
| PComponent (c : ComponentType)
| PRef (ref : nat)
| PText (s : string).

Definition RestProps : Type := list (string * PropValue).

Module Props.
Record t : Type := mk {
  loadingPage : option ComponentType;
  admin : option ComponentType;
  children : AdminChildren;
  includeDeprecated : bool;
  resources : list Resource;
  loading : bool;
  rest : RestProps
}.
End Props.

(** What the reconciler returns: [<LoadingPage />], or the admin element
    with its [loading] prop, the forwarded props and its children. *)
Inductive Rendered : Type :=
| LoadingElement (page : ComponentType)
| AdminElement (adminEl : ComponentType) (loadingProp : ComponentType)
               (rest : RestProps) (adminChildren : AdminChildren).

(** [<ResourceGuesser name={r.name} key={r.name} />]. *)
Definition guessedElement (r : Resource) : ReactNode :=
  Element ResourceGuesser (Some (name r)) (mkProps (Some (name r))) [].

Definition guessResourcesOf (includeDeprecated : bool)
           (resources : list Resource) : list Resource :=
  if includeDeprecated then resources
  else filter (fun r => negb (truthy (deprecated r))) resources.

Definition AdminResourcesGuesser (p : Props.t) : Logged Rendered :=
  let LoadingPage := default Loading (Props.loadingPage p) in
  let AdminEl := default AdminUI (Props.admin p) in
  let children := Props.children p in
  let resources := Props.resources p in
  displayOverrideCode <- useDisplayOverrideCode ;;
  if Props.loading p then ret (LoadingElement LoadingPage)
  else
    let adminChildren := children in
    scan <- logged (CallGetRoutesAndResourcesFromNodes children)
                   (getRoutesAndResourcesFromNodes children) ;;
    let resourceChildren := Scan.resources scan in
    let customRoutes := Scan.customRoutes scan in
    single <- logged (CallIsSingleChildFunction adminChildren)
                     (isSingleChildFunction adminChildren) ;;
    adminChildren <-
      (if negb single
          && (List.length resourceChildren =? 0)%nat
          && array_truthy resources
       then
         let guessResources :=
           guessResourcesOf (Props.includeDeprecated p) resources in
         let adminChildren :=
           Nodes (customRoutes ++ map guessedElement guessResources) in
         displayOverrideCode (getOverrideCode guessResources) ;;
         ret adminChildren
       else ret adminChildren) ;;
    ret (AdminElement AdminEl LoadingPage (Props.rest p) adminChildren).

(* ===================================================================== *)
(** ** AdminGuesser: data provider, state cells and handlers *)
(* ===================================================================== *)

Inductive Error : Type :=
| MkError (message : string).

(** The values [dataProvider.introspect] may hold, as far as [typeof]
    tells them apart. *)
Inductive JsValue : Type :=
| JsUndefined
| JsObject
| JsFunction.

Definition typeof (v : JsValue) : string :=
  match v with
  | JsUndefined => "undefined"
  | JsObject => "object"
  | JsFunction => "function"
  end.

Module DataProvider.
(** [ref] is the object's identity, which is what a dependency array
    compares. *)
Record t : Type := mk {
  ref : nat;
  introspect : JsValue
}.
End DataProvider.

Module Payload.
(** [{ data: { resources?: Resource[] } }]. *)
Record data_t : Type := mkData {
  resources : option (list Resource)
}.
Record t : Type := mk {
  data : data_t
}.
End Payload.

(** The only updater the component ever queues on its third state cell:
    [() => { throw error; }]. *)
Inductive ErrorUpdater : Type :=
| Throws (error : Error).

Module State.
(** The four [useState] cells.  The third keeps the updaters queued by
    [setError]; React applies them when the component next renders. *)
Record t : Type := mk {
  resources : list Resource;
  loading : bool;
  errorUpdates : list ErrorUpdater;
  introspect : bool
}.

Definition initial : t := mk [] true [] true.
End State.

Definition setResources (v : list Resource) (st : State.t) : State.t :=
  State.mk v (State.loading st) (State.errorUpdates st) (State.introspect st).

Definition setLoading (v : bool) (st : State.t) : State.t :=
  State.mk (State.resources st) v (State.errorUpdates st) (State.introspect st).

Definition setIntrospect (v : bool) (st : State.t) : State.t :=
  State.mk (State.resources st) (State.loading st) (State.errorUpdates st) v.

Definition setError (u : ErrorUpdater) (st : State.t) : State.t :=
  State.mk (State.resources st) (State.loading st)
           (State.errorUpdates st ++ [u]) (State.introspect st).

Definition configurationError : Error :=
  MkError ("The given dataProvider needs to expose an " ++ DQUOTE
           ++ "introspect" ++ DQUOTE
           ++ " function returning a parsed API documentation from api-doc-parser")%string.

(** The callbacks attached by [.then(...).catch(...)]. *)
Record Subscription : Type := mkSubscription {
  onFulfilled : Payload.t -> State.t -> State.t;
  onRejected : Error -> State.t -> State.t
}.

Definition thenHandler (payload : Payload.t) (st : State.t) : State.t :=
  let data := Payload.data payload in
  let st := setResources (nullish (Payload.resources data) []) st in
  let st := setIntrospect false st in
  setLoading false st.

Definition catchHandler (error : Error) (st : State.t) : State.t :=
  setError (Throws error) st.

Inductive EffectResult : Type :=
| EffectThrew (e : Error)
| EffectReturned
| EffectPending (h : Subscription).

(** The body of the [useEffect] callback. *)
Definition introspectionEffect (dataProvider : DataProvider.t)
           (introspect : bool) : Logged EffectResult :=
  if negb (typeof (DataProvider.introspect dataProvider) =? "function")%string
  then ret (EffectThrew configurationError)
  else if negb introspect then ret EffectReturned
  else
    logged (CallIntrospect (DataProvider.ref dataProvider))
           (EffectPending (mkSubscription thenHandler catchHandler)).

Inductive Settlement : Type :=
| Fulfilled (payload : Payload.t)
| Rejected (reason : Error).

Definition settle (s : Settlement) (h : Subscription) (st : State.t) : State.t :=
  match s with
  | Fulfilled payload => onFulfilled h payload st
  | Rejected reason => onRejected h reason st
  end.

(** How many times [introspect()] was called in a log. *)
Definition isIntrospectCall (c : Call) : bool :=
  match c with CallIntrospect _ => true | _ => false end.

Definition introspectCalls (l : list Call) : nat :=
  List.length (filter isIntrospectCall l).

(* ===================================================================== *)
(** ** The introspection capability and [useMemo] *)
(* ===================================================================== *)

Module Capability.
(** [{ introspect: () => void }]; [ref] is the object's identity. *)
Record t : Type := mk {
  ref : nat;
  introspect : State.t -> State.t
}.
End Capability.

Record MemoCell (V : Type) : Type := mkMemo {
  memoDeps : list nat;
  memoValue : V
}.
Arguments mkMemo {V} _ _.
Arguments memoDeps {V} _.
Arguments memoValue {V} _.

Definition deps_eqb (a b : list nat) : bool :=
  if list_eq_dec Nat.eq_dec a b then true else false.

(** [useMemo(factory, deps)]: the cached value is kept when every
    dependency is the same as at the previous render; otherwise the factory
    builds a new object, whose identity is the fiber's next free reference.
    The result says whether a reference was consumed. *)
Definition useMemo {V : Type} (factory : nat -> V) (deps : list nat)
           (cell : option (MemoCell V)) (fresh : nat) : MemoCell V * nat :=
  match cell with
  | Some c =>
      if deps_eqb (memoDeps c) deps then (c, fresh)
      else (mkMemo deps (factory fresh), S fresh)
  | None => (mkMemo deps (factory fresh), S fresh)
  end.

Definition introspectionContextFactory (fresh : nat) : Capability.t :=
  Capability.mk fresh (fun st => setIntrospect true (setLoading true st)).

(* ===================================================================== *)
(** ** AdminGuesser: render and commit *)
(* ===================================================================== *)

(** Defaults imported from [./layout/index.js], which is not among the
    sources; they are only forwarded, so a name stands for each. *)
Definition Layout : ComponentType := "Layout".
Definition LoginPage : ComponentType := "LoginPage".
Definition lightTheme : string := "lightTheme".

Module GuesserProps.
Record t : Type := mk {
  schemaAnalyzer : nat;
  includeDeprecated : option bool;
  dataProvider : DataProvider.t;
  layout : option ComponentType;
  loginPage : option ComponentType;
  loading : option ComponentType;
  theme : option string;
  admin : option ComponentType;
  children : AdminChildren;
  rest : RestProps
}.
End GuesserProps.

Module Fiber.
(** What React keeps for one mounted [AdminGuesser]: the state cells, the
    identities of the two setters the memo depends on, the dependencies
    of the effect as last run, the memo cell, the promises not yet
    settled, and the next free object reference. *)
Record t : Type := mk {
  state : State.t;
  setLoadingRef : nat;
  setIntrospectRef : nat;
  effectDeps : option (bool * nat);
  memo : option (MemoCell Capability.t);
  pending : list Subscription;
  nextRef : nat
}.

Definition initial : t := mk State.initial 0 1 None None [] 2.

Definition withState (st : State.t) (f : t) : t :=
  mk st (setLoadingRef f) (setIntrospectRef f) (effectDeps f) (memo f)
     (pending f) (nextRef f).

Definition withMemo (c : MemoCell Capability.t) (fresh : nat) (f : t) : t :=
  mk (state f) (setLoadingRef f) (setIntrospectRef f) (effectDeps f)
     (Some c) (pending f) fresh.

Definition withEffectDeps (d : bool * nat) (f : t) : t :=
  mk (state f) (setLoadingRef f) (setIntrospectRef f) (Some d) (memo f)
     (pending f) (nextRef f).

Definition withPending (l : list Subscription) (f : t) : t :=
  mk (state f) (setLoadingRef f) (setIntrospectRef f) (effectDeps f)
     (memo f) l (nextRef f).
End Fiber.

(** The element tree [AdminGuesser] returns: the three context values and
    the reconciler's output below them. *)
Module Tree.
Record t : Type := mk {
  dataProvider : DataProvider.t;
  introspectionContext : Capability.t;
  schemaAnalyzer : nat;
  ui : Rendered
}.
End Tree.

(** Applying the queue of the third state cell: the first updater throws. *)
Definition applyErrorUpdates (q : list ErrorUpdater) : option Error :=
  match q with
  | [] => None
  | Throws error :: _ => Some error
  end.

Definition memoDepsOf (f : Fiber.t) : list nat :=
  [Fiber.setLoadingRef f; Fiber.setIntrospectRef f].

Definition reconcilerProps (p : GuesserProps.t) (st : State.t) : Props.t :=
  Props.mk (GuesserProps.loading p)
           (GuesserProps.admin p)
           (GuesserProps.children p)
           (default false (GuesserProps.includeDeprecated p))
           (State.resources st)
           (State.loading st)
           (("dataProvider", PRef (DataProvider.ref (GuesserProps.dataProvider p)))
              :: ("layout", PComponent (default Layout (GuesserProps.layout p)))
              :: ("loginPage", PComponent (default LoginPage (GuesserProps.loginPage p)))
              :: ("theme", PText (default lightTheme (GuesserProps.theme p)))
              :: GuesserProps.rest p).

(** The render phase of [AdminGuesser]: read the state cells (which runs
    the queued updaters), memoise the capability, and build the tree. *)
Definition AdminGuesser (p : GuesserProps.t) (f : Fiber.t)
  : Logged (Error + Tree.t * Fiber.t) :=
  let st := Fiber.state f in
  match applyErrorUpdates (State.errorUpdates st) with
  | Some error => ret (inl error)
  | None =>
      let (cell, fresh) :=
        useMemo introspectionContextFactory (memoDepsOf f)
                (Fiber.memo f) (Fiber.nextRef f) in
      ui <- AdminResourcesGuesser (reconcilerProps p st) ;;
      ret (inr (Tree.mk (GuesserProps.dataProvider p) (memoValue cell)
                        (GuesserProps.schemaAnalyzer p) ui,
                Fiber.withMemo cell fresh f))
  end.

Definition effectDepsOf (p : GuesserProps.t) (f : Fiber.t) : bool * nat :=
  (State.introspect (Fiber.state f),
   DataProvider.ref (GuesserProps.dataProvider p)).

Definition effectDeps_eqb (a b : bool * nat) : bool :=
  Bool.eqb (fst a) (fst b) && Nat.eqb (snd a) (snd b).

(** An effect runs after the first render and after every render in which
    one of its dependencies is not the one it last ran with. *)
Definition effectDue (p : GuesserProps.t) (f : Fiber.t) : bool :=
  match Fiber.effectDeps f with
  | None => true
  | Some d => negb (effectDeps_eqb d (effectDepsOf p f))
  end.

(** The commit phase: run the effect if it is due. *)
Definition commit (p : GuesserProps.t) (f : Fiber.t)
  : Logged (Error + Fiber.t) :=
  if effectDue p f then
    r <- introspectionEffect (GuesserProps.dataProvider p)
                             (State.introspect (Fiber.state f)) ;;
    let f := Fiber.withEffectDeps (effectDepsOf p f) f in
    match r with
    | EffectThrew e => ret (inl e)
    | EffectReturned => ret (inr f)
    | EffectPending h =>
        ret (inr (Fiber.withPending (Fiber.pending f ++ [h]) f))
    end
  else ret (inr f).

(* ===================================================================== *)
(** ** AdminGuesserWithError: the component under its error boundary *)
(* ===================================================================== *)

(** Either the orchestrator is mounted and shows a tree, or the boundary
    caught an error and shows the fallback with it. *)
Inductive App : Type :=
| Mounted (p : GuesserProps.t) (f : Fiber.t) (tree : Tree.t)
| Fallback (error : Error).

(** One render followed by its commit; anything thrown in either phase
    ends up in the boundary. *)
Definition renderAndCommit (p : GuesserProps.t) (f : Fiber.t) : Logged App :=
  r <- AdminGuesser p f ;;
  match r with
  | inl error => ret (Fallback error)
  | inr (tree, f) =>
      c <- commit p f ;;
      match c with
      | inl error => ret (Fallback error)
      | inr f => ret (Mounted p f tree)
      end
  end.

Definition mount (p : GuesserProps.t) : Logged App :=
  renderAndCommit p Fiber.initial.

(** What can happen to a mounted application: the parent renders it again
    with some props, one of the promises in flight settles, or a descendant
    invokes the introspection capability it read from the context. *)
Inductive Event : Type :=
| Rerender (p : GuesserProps.t)
| Settle (i : nat) (s : Settlement)
| InvokeIntrospect.

Fixpoint removeAt {A : Type} (i : nat) (l : list A) {struct l} : list A :=
  match l, i with
  | [], _ => []
  | _ :: l', 0 => l'
  | x :: l', S i' => x :: removeAt i' l'
  end.

Definition step (a : App) (ev : Event) : Logged App :=
  match a with
  | Fallback error => ret (Fallback error)
  | Mounted p f tree =>
      match ev with
      | Rerender p' => renderAndCommit p' f
      | Settle i s =>
          match nth_error (Fiber.pending f) i with
          | None => ret a
          | Some h =>
              let st := settle s h (Fiber.state f) in
              renderAndCommit p
                (Fiber.withPending (removeAt i (Fiber.pending f))
                                   (Fiber.withState st f))
          end
      | InvokeIntrospect =>
          let st :=
            Capability.introspect (Tree.introspectionContext tree)
                                  (Fiber.state f) in
          renderAndCommit p (Fiber.withState st f)
      end
  end.

Fixpoint run (a : App) (evs : list Event) : Logged App :=
  match evs with
  | [] => ret a
  | ev :: evs' => a' <- step a ev ;; run a' evs'
  end.

Definition appState (a : App) : option State.t :=
  match a with
  | Mounted _ f _ => Some (Fiber.state f)
  | Fallback _ => None
  end.

Definition appCapability (a : App) : option nat :=
  match a with
  | Mounted _ _ tree => Some (Capability.ref (Tree.introspectionContext tree))
  | Fallback _ => None
  end.

(** A whole session: mount, then a sequence of events. *)
Definition session (p : GuesserProps.t) (evs : list Event) : Logged App :=
  a <- mount p ;; run a evs.

(* ===================================================================== *)
(** ** Predicates used in the statements *)
(* ===================================================================== *)

(** [l1] is [l2] with some elements left out, the others in place. *)
Inductive Subsequence {A : Type} : list A -> list A -> Prop :=
| Subsequence_nil : Subsequence [] []
| Subsequence_skip x l1 l2 : Subsequence l1 l2 -> Subsequence l1 (x :: l2)
| Subsequence_keep x l1 l2 : Subsequence l1 l2 -> Subsequence (x :: l1) (x :: l2).

Definition keyOf (n : ReactNode) : option string :=
  match n with
  | Element _ k _ _ => k
  | _ => None
  end.

Definition typeOf (n : ReactNode) : option ElementType :=
  match n with
  | Element ty _ _ _ => Some ty
  | _ => None
  end.

(** The children declare a resource: some element of the declared tree is
    a resource declaration. *)
Definition declaresResource (children : AdminChildren) : bool :=
  existsb (elementHas isResourceDeclaration) (declaredChildren children).

(** The subscription the effect attaches to the promise. *)
Definition effectSubscription : Subscription :=
  mkSubscription thenHandler catchHandler.

(** A fiber as a commit leaves it: no updater waiting on the error cell,
    the effect's dependencies recorded for these props, only the effect's
    own subscriptions in flight, and the memo cell filled by the factory
    for the current setters. *)
Definition Committed (p : GuesserProps.t) (f : Fiber.t) (tree : Tree.t) : Prop :=
  State.errorUpdates (Fiber.state f) = []
  /\ Fiber.effectDeps f = Some (effectDepsOf p f)
  /\ Forall (eq effectSubscription) (Fiber.pending f)
  /\ exists n,
       Fiber.memo f = Some (mkMemo (memoDepsOf f) (introspectionContextFactory n))
       /\ Tree.introspectionContext tree = introspectionContextFactory n.

Definition Consistent (a : App) : Prop :=
  match a with
  | Mounted p f tree => Committed p f tree
  | Fallback _ => True
  end.

(** What a render may find on a fiber it is given. *)
Definition Renderable (f : Fiber.t) : Prop :=
  Forall (eq effectSubscription) (Fiber.pending f)
  /\ (Fiber.memo f = None
      \/ exists n,
           Fiber.memo f
           = Some (mkMemo (memoDepsOf f) (introspectionContextFactory n))).



(** The two flags move together, and while they are set some promise is
    still to settle. *)
Definition Awaited (a : App) : Prop :=
  match a with
  | Mounted _ f _ =>
      State.loading (Fiber.state f) = State.introspect (Fiber.state f)
      /\ (State.introspect (Fiber.state f) = true -> Fiber.pending f <> [])
  | Fallback _ => True
  end.

(** The tree on screen is the one the current props and state render. *)
Definition Shown (a : App) : Prop :=
  match a with
  | Mounted p f tree =>
      Tree.ui tree
      = value (AdminResourcesGuesser (reconcilerProps p (Fiber.state f)))
      /\ Tree.dataProvider tree = GuesserProps.dataProvider p
      /\ Tree.schemaAnalyzer tree = GuesserProps.schemaAnalyzer p
  | Fallback _ => True
  end.

(** The fiber an event leaves for the render that follows, and that
    render's outcome. *)
Definition rendersFrom (q : GuesserProps.t) (f : Fiber.t) (tree : Tree.t)
           (st : State.t) (pend : list Subscription) (r : Logged App) : Prop :=
  let g := Fiber.withPending pend (Fiber.withState st f) in
  let ui := AdminResourcesGuesser (reconcilerProps q st) in
  State.errorUpdates st = []
  /\ r = (match value (commit q g) with
          | inl error => Fallback error
          | inr g2 =>
              Mounted q g2
                (Tree.mk (GuesserProps.dataProvider q)
                         (Tree.introspectionContext tree)
                         (GuesserProps.schemaAnalyzer q) (value ui))
          end,
          calls ui ++ calls (commit q g)).

(** Props with nothing but a data provider, for worked examples. *)
Definition propsWith (dp : DataProvider.t) : GuesserProps.t :=
  GuesserProps.mk 0 None dp None None None None None (Nodes []) [].

(* ===================================================================== *)
(** * Properties of the reconciler *)
(* ===================================================================== *)

Section ScanFacts.

Let isRes := elementHas isResourceDeclaration.
Let isRoute := elementHas isCustomRoute.

Lemma scanNode_collects (n : ReactNode) :
  forall acc,
    scanNode n acc
    = Scan.mk (Scan.resources acc ++ filter isRes (declaredElements n))
              (Scan.customRoutes acc ++ filter isRoute (declaredElements n)).
Proof.
  induction n as [ | s | ty k pr cs IH ] using ReactNode_nested_ind;
    intros acc.
  - destruct acc; simpl; now rewrite !app_nil_r.
  - destruct acc; simpl; now rewrite !app_nil_r.
  - simpl. destruct (isFragment ty) eqn:Hfrag.
    + revert acc. induction IH as [ | c cs' Hc _ IHcs ]; intros acc.
      * destruct acc; simpl; now rewrite !app_nil_r.
      * simpl. rewrite Hc, IHcs. simpl.
        now rewrite !filter_app, !app_assoc.
    + destruct ty; try discriminate; destruct acc; simpl;
        unfold Scan.pushCustomRoute, Scan.pushResource; simpl;
        now rewrite ?app_nil_r.
Qed.

Lemma scanNodes_collects (l : list ReactNode) :
  forall acc,
    scanNodes l acc
    = Scan.mk (Scan.resources acc
                 ++ filter isRes (flat_map declaredElements l))
              (Scan.customRoutes acc
                 ++ filter isRoute (flat_map declaredElements l)).
Proof.
  unfold scanNodes.
  induction l as [ | c l IH ]; intros acc; simpl.
  - destruct acc; simpl; now rewrite !app_nil_r.
  - rewrite IH, scanNode_collects. simpl.
    now rewrite !filter_app, !app_assoc.
Qed.

(** The scan returns the declared elements of each kind, in document
    order. *)
Lemma getRoutesAndResourcesFromNodes_collects (children : AdminChildren) :
  getRoutesAndResourcesFromNodes children
  = Scan.mk (filter isRes (declaredChildren children))
            (filter isRoute (declaredChildren children)).
Proof.
  destruct children as [ f | items ]; simpl.
  - reflexivity.
  - now rewrite scanNodes_collects.
Qed.

End ScanFacts.

Lemma Subsequence_filter {A : Type} (keep : A -> bool) (l : list A) :
  Subsequence (filter keep l) l.
Proof.
  induction l as [ | x l IH ]; simpl.
  - constructor.
  - destruct (keep x); now constructor.
Qed.

Lemma Subsequence_refl {A : Type} (l : list A) : Subsequence l l.
Proof. induction l; now constructor. Qed.

Lemma truthy_deprecated (r : Resource) :
  negb (truthy (deprecated r)) = true <-> deprecated r <> Some true.
Proof.
  destruct (deprecated r) as [ [ | ] | ]; simpl; split; intros H;
    try reflexivity; try discriminate; try congruence.
Qed.

(** The reconciler's result when the guard of the guessing branch holds. *)
Lemma AdminResourcesGuesser_guessing (p : Props.t) :
  Props.loading p = false ->
  isSingleChildFunction (Props.children p) = false ->
  Scan.resources (getRoutesAndResourcesFromNodes (Props.children p)) = [] ->
  let scan := getRoutesAndResourcesFromNodes (Props.children p) in
  let guessed :=
    guessResourcesOf (Props.includeDeprecated p) (Props.resources p) in
  AdminResourcesGuesser p
  = (AdminElement (default AdminUI (Props.admin p))
                  (default Loading (Props.loadingPage p))
                  (Props.rest p)
                  (Nodes (Scan.customRoutes scan ++ map guessedElement guessed)),
     [CallUseDisplayOverrideCode;
      CallGetRoutesAndResourcesFromNodes (Props.children p);
      CallIsSingleChildFunction (Props.children p);
      CallDisplayOverrideCode (getOverrideCode guessed)]).
Proof.
  intros Hload Hfun Hres. unfold AdminResourcesGuesser.
  rewrite Hload. cbn [useDisplayOverrideCode logged bind ret app].
  rewrite Hfun, Hres. reflexivity.
Qed.

(** The reconciler's result when the guard fails: pass-through. *)
Lemma AdminResourcesGuesser_passthrough (p : Props.t) :
  Props.loading p = false ->
  isSingleChildFunction (Props.children p) = true
  \/ Scan.resources (getRoutesAndResourcesFromNodes (Props.children p)) <> [] ->
  AdminResourcesGuesser p
  = (AdminElement (default AdminUI (Props.admin p))
                  (default Loading (Props.loadingPage p))
                  (Props.rest p)
                  (Props.children p),
     [CallUseDisplayOverrideCode;
      CallGetRoutesAndResourcesFromNodes (Props.children p);
      CallIsSingleChildFunction (Props.children p)]).
Proof.
  intros Hload Hguard. unfold AdminResourcesGuesser.
  rewrite Hload. cbn [useDisplayOverrideCode logged bind ret app].
  destruct Hguard as [ Hfun | Hres ].
  - rewrite Hfun. reflexivity.
  - destruct (isSingleChildFunction (Props.children p)); [ reflexivity | ].
    destruct (Scan.resources
                (getRoutesAndResourcesFromNodes (Props.children p)));
      [ congruence | reflexivity ].
Qed.

Lemma guessResourcesOf_spelled (includeDeprecated : bool)
      (resources : list Resource) :
  guessResourcesOf includeDeprecated resources
  = if includeDeprecated then resources
    else filter (fun r => match deprecated r with
                          | Some true => false
                          | _ => true
                          end) resources.
Proof.
  unfold guessResourcesOf. destruct includeDeprecated; [ reflexivity | ].
  apply filter_ext. intros r. now destruct (deprecated r) as [ [ | ] | ].
Qed.

(** C1.  In the guessing branch (not loading, children not a render
    function, no resource declaration found), the children of the admin
    element are the custom routes followed by one [ResourceGuesser]
    element per resource of a list [G] taken from [resources] in order,
    each with the resource's name as its key and as its [name] prop.  With
    [includeDeprecated = false], [G] holds exactly the resources whose
    [deprecated] is not [true]; with [includeDeprecated = true], [G] is the
    whole of [resources]; for empty [resources], [G] is empty and the admin
    element is still returned. *)
Theorem guessing_filters_deprecated (p : Props.t) :
  Props.loading p = false ->
  isSingleChildFunction (Props.children p) = false ->
  Scan.resources (getRoutesAndResourcesFromNodes (Props.children p)) = [] ->
  exists G : list Resource,
    value (AdminResourcesGuesser p)
    = AdminElement
        (default AdminUI (Props.admin p))
        (default Loading (Props.loadingPage p))
        (Props.rest p)
        (Nodes (Scan.customRoutes
                  (getRoutesAndResourcesFromNodes (Props.children p))
                ++ map (fun r =>
                          Element ResourceGuesser (Some (name r))
                                  (mkProps (Some (name r))) [])
                       G))
    /\ Subsequence G (Props.resources p)
    /\ (Props.includeDeprecated p = false ->
        G = filter (fun r => match deprecated r with
                             | Some true => false
                             | _ => true
                             end) (Props.resources p)
        /\ (forall r, In r G
                      <-> In r (Props.resources p)
                          /\ deprecated r <> Some true))
    /\ (Props.includeDeprecated p = true -> G = Props.resources p)
    /\ (Props.resources p = [] -> G = []).
Proof.
  intros Hload Hfun Hres.
  exists (guessResourcesOf (Props.includeDeprecated p) (Props.resources p)).
  rewrite (AdminResourcesGuesser_guessing p Hload Hfun Hres).
  split; [ reflexivity | ].
  rewrite guessResourcesOf_spelled.
  destruct (Props.includeDeprecated p).
  - split; [ apply Subsequence_refl | ].
    split; [ discriminate | ].
    split; [ reflexivity | auto ].
  - split; [ apply Subsequence_filter | ].
    split.
    + intros _. split; [ reflexivity | ].
      intros r. rewrite filter_In.
      destruct (deprecated r) as [ [ | ] | ]; split; intros [ Hin H ];
        split; try assumption; try reflexivity; try discriminate;
        congruence.
    + split; [ discriminate | ].
      intros HR. now rewrite HR.
Qed.

Lemma guessing_filters_deprecated_witness :
  value (AdminResourcesGuesser
           (Props.mk None None (Nodes []) false
              [mkResource "books" (Some false);
               mkResource "reviews" (Some true);
               mkResource "authors" None]
              false []))
  = AdminElement AdminUI Loading []
      (Nodes [Element ResourceGuesser (Some "books")
                (mkProps (Some "books")) [];
              Element ResourceGuesser (Some "authors")
                (mkProps (Some "authors")) []])
  /\ value (AdminResourcesGuesser
              (Props.mk None None (Nodes []) true
                 [mkResource "books" (Some false);
                  mkResource "reviews" (Some true)]
                 false []))
     = AdminElement AdminUI Loading []
         (Nodes [Element ResourceGuesser (Some "books")
                   (mkProps (Some "books")) [];
                 Element ResourceGuesser (Some "reviews")
                   (mkProps (Some "reviews")) []]).
Proof.
  split.
  - destruct (guessing_filters_deprecated
                (Props.mk None None (Nodes []) false
                   [mkResource "books" (Some false);
                    mkResource "reviews" (Some true);
                    mkResource "authors" None]
                   false [])
                eq_refl eq_refl eq_refl)
      as (G & Hout & _ & Hfalse & _ & _).
    destruct (Hfalse eq_refl) as [ HG _ ].
    rewrite HG in Hout. exact Hout.
  - destruct (guessing_filters_deprecated
                (Props.mk None None (Nodes []) true
                   [mkResource "books" (Some false);
                    mkResource "reviews" (Some true)]
                   false [])
                eq_refl eq_refl eq_refl)
      as (G & Hout & _ & _ & Htrue & _).
    rewrite (Htrue eq_refl) in Hout. exact Hout.
Defined.

(** C2.  When not loading and the declared children contain a resource
    declaration, the admin element receives the declared children
    themselves and the override snippet is never displayed, whatever
    [resources] holds. *)
Theorem explicit_resources_win (p : Props.t) :
  Props.loading p = false ->
  declaresResource (Props.children p) = true ->
  AdminResourcesGuesser p
  = (AdminElement (default AdminUI (Props.admin p))
                  (default Loading (Props.loadingPage p))
                  (Props.rest p)
                  (Props.children p),
     [CallUseDisplayOverrideCode;
      CallGetRoutesAndResourcesFromNodes (Props.children p);
      CallIsSingleChildFunction (Props.children p)]).
Proof.
  intros Hload Hdecl.
  apply existsb_exists in Hdecl. destruct Hdecl as (n & Hin & Hres).
  apply AdminResourcesGuesser_passthrough; [ exact Hload | right ].
  rewrite getRoutesAndResourcesFromNodes_collects. simpl.
  intros Hnil.
  assert (Hn : In n (filter (elementHas isResourceDeclaration)
                            (declaredChildren (Props.children p)))).
  { apply filter_In. now split. }
  rewrite Hnil in Hn. exact Hn.
Qed.

Lemma explicit_resources_win_witness :
  AdminResourcesGuesser
    (Props.mk None None
       (Nodes [Element Fragment None (mkProps None)
                 [Element ResourceElement None (mkProps (Some "books")) []]])
       false [mkResource "reviews" None] false [])
  = (AdminElement AdminUI Loading []
       (Nodes [Element Fragment None (mkProps None)
                 [Element ResourceElement None (mkProps (Some "books")) []]]),
     [CallUseDisplayOverrideCode;
      CallGetRoutesAndResourcesFromNodes
        (Nodes [Element Fragment None (mkProps None)
                  [Element ResourceElement None (mkProps (Some "books")) []]]);
      CallIsSingleChildFunction
        (Nodes [Element Fragment None (mkProps None)
                  [Element ResourceElement None (mkProps (Some "books")) []]])]).
Proof.
  apply (explicit_resources_win
           (Props.mk None None
              (Nodes [Element Fragment None (mkProps None)
                        [Element ResourceElement None (mkProps (Some "books")) []]])
              false [mkResource "reviews" None] false [])).
  - reflexivity.
  - reflexivity.
Defined.

(** C3.  When not loading and [children] is a render function, the admin
    element receives that very function; the resources are neither
    filtered nor mapped and no snippet is displayed. *)
Theorem render_function_passthrough (p : Props.t) (fn : RenderResourcesFunction) :
  Props.loading p = false ->
  Props.children p = RenderFunction fn ->
  AdminResourcesGuesser p
  = (AdminElement (default AdminUI (Props.admin p))
                  (default Loading (Props.loadingPage p))
                  (Props.rest p)
                  (RenderFunction fn),
     [CallUseDisplayOverrideCode;
      CallGetRoutesAndResourcesFromNodes (RenderFunction fn);
      CallIsSingleChildFunction (RenderFunction fn)]).
Proof.
  intros Hload Hchildren.
  rewrite (AdminResourcesGuesser_passthrough p Hload).
  - now rewrite Hchildren.
  - left. now rewrite Hchildren.
Qed.

Lemma render_function_passthrough_witness :
  AdminResourcesGuesser
    (Props.mk None None (RenderFunction (FunctionRef 3)) false
       [mkResource "books" None] false [])
  = (AdminElement AdminUI Loading [] (RenderFunction (FunctionRef 3)),
     [CallUseDisplayOverrideCode;
      CallGetRoutesAndResourcesFromNodes (RenderFunction (FunctionRef 3));
      CallIsSingleChildFunction (RenderFunction (FunctionRef 3))]).
Proof.
  apply (render_function_passthrough
           (Props.mk None None (RenderFunction (FunctionRef 3)) false
              [mkResource "books" None] false [])
           (FunctionRef 3));
    reflexivity.
Defined.

(** C4.  While loading, the reconciler returns the loading page element
    and nothing else: the only call made is the hook at the top of the
    function, so the children are not scanned, not inspected, and nothing
    is guessed or displayed, whatever [children] and [resources] hold. *)
Theorem loading_renders_placeholder (p : Props.t) :
  Props.loading p = true ->
  AdminResourcesGuesser p
  = (LoadingElement (default Loading (Props.loadingPage p)),
     [CallUseDisplayOverrideCode]).
Proof.
  intros Hload. unfold AdminResourcesGuesser. rewrite Hload. reflexivity.
Qed.

Lemma loading_renders_placeholder_witness :
  AdminResourcesGuesser
    (Props.mk (Some "Spinner") None
       (Nodes [Element ResourceElement None (mkProps (Some "books")) []])
       true [mkResource "books" None] true [])
  = (LoadingElement "Spinner", [CallUseDisplayOverrideCode]).
Proof.
  apply (loading_renders_placeholder
           (Props.mk (Some "Spinner") None
              (Nodes [Element ResourceElement None (mkProps (Some "books")) []])
              true [mkResource "books" None] true [])).
  reflexivity.
Defined.

(** C9.  In the guessing branch the children of the admin element are, in
    this order: the custom-route elements of the declared tree in their
    declaration order, then one [ResourceGuesser] element per remaining
    resource (every resource when [includeDeprecated] is set, otherwise
    those whose [deprecated] is not [true]), in the resources' order, each
    with the resource's name as its key and as its [name] prop. *)
Theorem guessing_emits_routes_then_resources (p : Props.t) :
  Props.loading p = false ->
  isSingleChildFunction (Props.children p) = false ->
  Scan.resources (getRoutesAndResourcesFromNodes (Props.children p)) = [] ->
  let routes :=
    filter (elementHas isCustomRoute) (declaredChildren (Props.children p)) in
  let remaining :=
    if Props.includeDeprecated p then Props.resources p
    else filter (fun r => match deprecated r with
                          | Some true => false
                          | _ => true
                          end) (Props.resources p) in
  let views :=
    map (fun r => Element ResourceGuesser (Some (name r))
                          (mkProps (Some (name r))) [])
        remaining in
  value (AdminResourcesGuesser p)
  = AdminElement (default AdminUI (Props.admin p))
                 (default Loading (Props.loadingPage p))
                 (Props.rest p)
                 (Nodes (routes ++ views))
  /\ Subsequence routes (declaredChildren (Props.children p))
  /\ Subsequence remaining (Props.resources p)
  /\ List.length views = List.length remaining
  /\ map keyOf views = map (fun r => Some (name r)) remaining
  /\ map typeOf views = map (fun _ => Some ResourceGuesser) remaining
  /\ Forall (fun n => In n (declaredChildren (Props.children p))
                      /\ typeOf n = Some CustomRoutes) routes.
Proof.
  intros Hload Hfun Hres routes remaining views.
  rewrite (AdminResourcesGuesser_guessing p Hload Hfun Hres).
  rewrite getRoutesAndResourcesFromNodes_collects, guessResourcesOf_spelled.
  simpl.
  split; [ reflexivity | ].
  split; [ apply Subsequence_filter | ].
  split.
  { unfold remaining. destruct (Props.includeDeprecated p);
      [ apply Subsequence_refl | apply Subsequence_filter ]. }
  unfold views.
  split; [ apply length_map | ].
  split; [ now rewrite map_map | ].
  split; [ now rewrite map_map | ].
  apply Forall_forall. intros n Hn.
  apply filter_In in Hn. destruct Hn as [ Hin Hroute ].
  split; [ exact Hin | ].
  destruct n as [ | s | ty k pr cs ]; try discriminate.
  destruct ty; try discriminate. reflexivity.
Qed.

Lemma guessing_emits_routes_then_resources_witness :
  value (AdminResourcesGuesser
           (Props.mk None None
              (Nodes [Text "menu";
                      Element Fragment None (mkProps None)
                        [Element CustomRoutes (Some "a") (mkProps None) []];
                      Element CustomRoutes (Some "b") (mkProps None) []])
              false
              [mkResource "books" None; mkResource "reviews" (Some true);
               mkResource "authors" (Some false)]
              false []))
  = AdminElement AdminUI Loading []
      (Nodes [Element CustomRoutes (Some "a") (mkProps None) [];
              Element CustomRoutes (Some "b") (mkProps None) [];
              Element ResourceGuesser (Some "books") (mkProps (Some "books")) [];
              Element ResourceGuesser (Some "authors")
                (mkProps (Some "authors")) []]).
Proof.
  exact (proj1 (guessing_emits_routes_then_resources
                  (Props.mk None None
                     (Nodes [Text "menu";
                             Element Fragment None (mkProps None)
                               [Element CustomRoutes (Some "a") (mkProps None) []];
                             Element CustomRoutes (Some "b") (mkProps None) []])
                     false
                     [mkResource "books" None; mkResource "reviews" (Some true);
                      mkResource "authors" (Some false)]
                     false [])
                  eq_refl eq_refl eq_refl)).
Defined.

(* ===================================================================== *)
(** * Properties of the orchestrator *)
(* ===================================================================== *)

(** ** The call log *)

Lemma bind_value {A B : Type} (m : Logged A) (k : A -> Logged B) :
  value (bind m k) = value (k (value m)).
Proof. destruct m as [ a l ]. unfold bind, value. simpl. now destruct (k a). Qed.

Lemma bind_calls {A B : Type} (m : Logged A) (k : A -> Logged B) :
  calls (bind m k) = calls m ++ calls (k (value m)).
Proof. destruct m as [ a l ]. unfold bind, calls. simpl. now destruct (k a). Qed.

Lemma Logged_eta {A : Type} (m : Logged A) : m = (value m, calls m).
Proof. now destruct m. Qed.

Lemma introspectCalls_app (l1 l2 : list Call) :
  introspectCalls (l1 ++ l2) = introspectCalls l1 + introspectCalls l2.
Proof. unfold introspectCalls. now rewrite filter_app, length_app. Qed.

Lemma ret_no_introspect {A : Type} (a : A) :
  introspectCalls (calls (ret a)) = 0.
Proof. reflexivity. Qed.

Ltac count_calls :=
  simpl; rewrite ?ret_no_introspect;
  first [ lia | unfold introspectCalls in *; simpl in *; lia ].

Lemma AdminResourcesGuesser_no_introspect (p : Props.t) :
  introspectCalls (calls (AdminResourcesGuesser p)) = 0.
Proof.
  unfold AdminResourcesGuesser.
  destruct (Props.loading p); [ reflexivity | ].
  cbn [useDisplayOverrideCode logged bind ret app].
  destruct (negb (isSingleChildFunction (Props.children p))
            && (List.length
                  (Scan.resources
                     (getRoutesAndResourcesFromNodes (Props.children p)))
                =? 0)%nat
            && array_truthy (Props.resources p));
    reflexivity.
Qed.

(** ** The effect *)

Lemma typeof_not_function (v : JsValue) :
  typeof v <> "function" -> (typeof v =? "function")%string = false.
Proof. intros H. now apply String.eqb_neq. Qed.

Lemma introspectionEffect_throws (dp : DataProvider.t) (flag : bool) :
  typeof (DataProvider.introspect dp) <> "function" ->
  introspectionEffect dp flag = (EffectThrew configurationError, []).
Proof.
  intros H. unfold introspectionEffect.
  now rewrite (typeof_not_function _ H).
Qed.

Lemma introspectionEffect_returns (dp : DataProvider.t) :
  typeof (DataProvider.introspect dp) = "function" ->
  introspectionEffect dp false = (EffectReturned, []).
Proof. intros H. unfold introspectionEffect. now rewrite H. Qed.

Lemma introspectionEffect_fetches (dp : DataProvider.t) :
  typeof (DataProvider.introspect dp) = "function" ->
  introspectionEffect dp true
  = (EffectPending effectSubscription, [CallIntrospect (DataProvider.ref dp)]).
Proof. intros H. unfold introspectionEffect. now rewrite H. Qed.

Lemma introspectionEffect_pending (dp : DataProvider.t) (flag : bool)
      (h : Subscription) (log : list Call) :
  introspectionEffect dp flag = (EffectPending h, log) ->
  h = effectSubscription
  /\ log = [CallIntrospect (DataProvider.ref dp)]
  /\ flag = true
  /\ typeof (DataProvider.introspect dp) = "function".
Proof.
  unfold introspectionEffect.
  destruct (typeof (DataProvider.introspect dp) =? "function")%string eqn:Hty;
    simpl; [ | discriminate ].
  destruct flag; simpl; [ | discriminate ].
  intros H. inversion H. apply String.eqb_eq in Hty. now repeat split.
Qed.

Lemma introspectionEffect_at_most_once (dp : DataProvider.t) (flag : bool) :
  introspectCalls (calls (introspectionEffect dp flag)) <= 1.
Proof.
  unfold introspectionEffect.
  destruct (typeof (DataProvider.introspect dp) =? "function")%string;
    destruct flag; cbv; lia.
Qed.

(** ** Render and commit *)

Lemma deps_eqb_refl (d : list nat) : deps_eqb d d = true.
Proof. unfold deps_eqb. now destruct (list_eq_dec Nat.eq_dec d d). Qed.

Lemma deps_eqb_eq (a b : list nat) : deps_eqb a b = true <-> a = b.
Proof.
  unfold deps_eqb. destruct (list_eq_dec Nat.eq_dec a b); split;
    intros; congruence.
Qed.

Lemma effectDeps_eqb_eq (a b : bool * nat) :
  effectDeps_eqb a b = true <-> a = b.
Proof.
  destruct a as [ x n ], b as [ y m ]. unfold effectDeps_eqb. simpl.
  rewrite andb_true_iff, Bool.eqb_true_iff, Nat.eqb_eq.
  split; [ intros [ -> -> ]; reflexivity | intros H; inversion H; auto ].
Qed.

Lemma AdminGuesser_rethrows (p : GuesserProps.t) (f : Fiber.t)
      (error : Error) (q : list ErrorUpdater) :
  State.errorUpdates (Fiber.state f) = Throws error :: q ->
  AdminGuesser p f = (inl error, []).
Proof. intros H. unfold AdminGuesser. now rewrite H. Qed.

(** A render that finds no queued updater returns a tree; it calls
    nothing but the reconciler's helpers, and leaves everything on the
    fiber but the memo cell as it was. *)
Lemma AdminGuesser_renders (p : GuesserProps.t) (f : Fiber.t) :
  State.errorUpdates (Fiber.state f) = [] ->
  let m := useMemo introspectionContextFactory (memoDepsOf f)
                   (Fiber.memo f) (Fiber.nextRef f) in
  let r := AdminResourcesGuesser (reconcilerProps p (Fiber.state f)) in
  AdminGuesser p f
  = (inr (Tree.mk (GuesserProps.dataProvider p) (memoValue (fst m))
                  (GuesserProps.schemaAnalyzer p) (value r),
          Fiber.withMemo (fst m) (snd m) f),
     calls r).
Proof.
  intros H m r. unfold AdminGuesser. rewrite H. simpl.
  fold m. destruct m as [ cell fresh ]. fold r.
  rewrite (Logged_eta r) at 1. unfold bind, ret, value, calls. simpl.
  now rewrite app_nil_r.
Qed.

Lemma useMemo_renderable (f : Fiber.t) :
  Renderable f ->
  exists n fresh,
    useMemo introspectionContextFactory (memoDepsOf f)
            (Fiber.memo f) (Fiber.nextRef f)
    = (mkMemo (memoDepsOf f) (introspectionContextFactory n), fresh).
Proof.
  intros [ _ [ Hnone | [ n Hsome ] ] ].
  - rewrite Hnone. simpl. eauto.
  - rewrite Hsome. simpl. rewrite deps_eqb_refl. eauto.
Qed.

Lemma commit_at_most_once (p : GuesserProps.t) (f : Fiber.t) :
  introspectCalls (calls (commit p f)) <= 1.
Proof.
  unfold commit. destruct (effectDue p f); [ | count_calls ].
  rewrite bind_calls, introspectCalls_app.
  pose proof (introspectionEffect_at_most_once
                (GuesserProps.dataProvider p)
                (State.introspect (Fiber.state f))) as H.
  destruct (value (introspectionEffect (GuesserProps.dataProvider p)
                                       (State.introspect (Fiber.state f))));
    count_calls.
Qed.

Lemma AdminGuesser_no_introspect (p : GuesserProps.t) (f : Fiber.t) :
  introspectCalls (calls (AdminGuesser p f)) = 0.
Proof.
  destruct (State.errorUpdates (Fiber.state f)) as [ | [ e ] q ] eqn:Hq.
  - rewrite (AdminGuesser_renders p f Hq). simpl.
    apply AdminResourcesGuesser_no_introspect.
  - now rewrite (AdminGuesser_rethrows p f e q Hq).
Qed.

Lemma renderAndCommit_at_most_once (p : GuesserProps.t) (f : Fiber.t) :
  introspectCalls (calls (renderAndCommit p f)) <= 1.
Proof.
  unfold renderAndCommit.
  rewrite bind_calls, introspectCalls_app, AdminGuesser_no_introspect.
  destruct (value (AdminGuesser p f)) as [ e | [ tree f' ] ];
    [ count_calls | ].
  rewrite bind_calls, introspectCalls_app.
  pose proof (commit_at_most_once p f') as H.
  destruct (value (commit p f')); count_calls.
Qed.

Lemma step_at_most_once (a : App) (ev : Event) :
  introspectCalls (calls (step a ev)) <= 1.
Proof.
  destruct a as [ p f tree | e ]; [ | count_calls ].
  destruct ev as [ p' | i s | ]; simpl.
  - apply renderAndCommit_at_most_once.
  - destruct (nth_error (Fiber.pending f) i);
      [ apply renderAndCommit_at_most_once | count_calls ].
  - apply renderAndCommit_at_most_once.
Qed.

Lemma renderAndCommit_rethrows (p : GuesserProps.t) (f : Fiber.t)
      (error : Error) (q : list ErrorUpdater) :
  State.errorUpdates (Fiber.state f) = Throws error :: q ->
  renderAndCommit p f = (Fallback error, []).
Proof.
  intros H. unfold renderAndCommit.
  now rewrite (AdminGuesser_rethrows p f error q H).
Qed.

(** A render of a renderable fiber with an empty error queue, followed by
    its commit. *)
Lemma renderAndCommit_renders (p : GuesserProps.t) (f : Fiber.t)
      (n fresh : nat) :
  State.errorUpdates (Fiber.state f) = [] ->
  useMemo introspectionContextFactory (memoDepsOf f)
          (Fiber.memo f) (Fiber.nextRef f)
  = (mkMemo (memoDepsOf f) (introspectionContextFactory n), fresh) ->
  let f1 :=
    Fiber.withMemo (mkMemo (memoDepsOf f) (introspectionContextFactory n))
                   fresh f in
  let r := AdminResourcesGuesser (reconcilerProps p (Fiber.state f)) in
  let tree :=
    Tree.mk (GuesserProps.dataProvider p) (introspectionContextFactory n)
            (GuesserProps.schemaAnalyzer p) (value r) in
  renderAndCommit p f
  = (match value (commit p f1) with
     | inl error => Fallback error
     | inr f2 => Mounted p f2 tree
     end,
     calls r ++ calls (commit p f1)).
Proof.
  intros Hq Hmemo f1 r tree. unfold renderAndCommit.
  rewrite (AdminGuesser_renders p f Hq), Hmemo. simpl.
  fold f1 r tree.
  rewrite (Logged_eta (commit p f1)). unfold bind, ret, value, calls. simpl.
  destruct (fst (commit p f1)); simpl; now rewrite app_nil_r.
Qed.

Lemma commit_not_due (p : GuesserProps.t) (f : Fiber.t) :
  effectDue p f = false -> commit p f = (inr f, []).
Proof. intros H. unfold commit. now rewrite H. Qed.

Lemma commit_due (p : GuesserProps.t) (f : Fiber.t) :
  effectDue p f = true ->
  let e := introspectionEffect (GuesserProps.dataProvider p)
                               (State.introspect (Fiber.state f)) in
  let f1 := Fiber.withEffectDeps (effectDepsOf p f) f in
  commit p f
  = (match value e with
     | EffectThrew error => inl error
     | EffectReturned => inr f1
     | EffectPending h =>
         inr (Fiber.withPending (Fiber.pending f1 ++ [h]) f1)
     end,
     calls e).
Proof.
  intros H e f1. unfold commit. rewrite H. fold e.
  rewrite (Logged_eta e). unfold bind, ret, value, calls. simpl.
  destruct (fst e); simpl; now rewrite app_nil_r.
Qed.

Lemma effectDue_false (p : GuesserProps.t) (f : Fiber.t) :
  effectDue p f = false <-> Fiber.effectDeps f = Some (effectDepsOf p f).
Proof.
  unfold effectDue. destruct (Fiber.effectDeps f) as [ d | ].
  - rewrite negb_false_iff, effectDeps_eqb_eq.
    split; intros H; congruence.
  - split; discriminate.
Qed.

(** ** The invariant of a mounted application *)

Lemma renderAndCommit_consistent (p : GuesserProps.t) (f : Fiber.t) :
  Renderable f -> Consistent (value (renderAndCommit p f)).
Proof.
  intros Hf.
  destruct (State.errorUpdates (Fiber.state f)) as [ | [ e ] q ] eqn:Hq.
  2: { now rewrite (renderAndCommit_rethrows p f e q Hq). }
  destruct (useMemo_renderable f Hf) as (n & fresh & Hmemo).
  rewrite (renderAndCommit_renders p f n fresh Hq Hmemo). simpl.
  set (f1 := Fiber.withMemo _ fresh f).
  destruct Hf as [ Hpending _ ].
  destruct (effectDue p f1) eqn:Hdue.
  - rewrite (commit_due p f1 Hdue).
    change (Fiber.state f1) with (Fiber.state f).
    destruct (introspectionEffect (GuesserProps.dataProvider p)
                (State.introspect (Fiber.state f)))
      as [ [ e | | h ] log ] eqn:He; simpl.
    + exact I.
    + repeat split; try assumption.
      exists n. now split.
    + apply introspectionEffect_pending in He. destruct He as (-> & _).
      repeat split; try assumption.
      * apply Forall_app. split; [ assumption | now constructor ].
      * exists n. now split.
  - rewrite (commit_not_due p f1 Hdue). simpl.
    apply effectDue_false in Hdue.
    repeat split; try assumption.
    exists n. now split.
Qed.

Lemma removeAt_Forall {A : Type} (P : A -> Prop) (l : list A) :
  Forall P l -> forall i, Forall P (removeAt i l).
Proof.
  induction 1 as [ | x l Hx Hl IH ]; intros i; simpl.
  - constructor.
  - destruct i; [ assumption | constructor; auto ].
Qed.

Lemma Committed_renderable (p : GuesserProps.t) (f : Fiber.t) (tree : Tree.t)
      (st : State.t) (pending : list Subscription) :
  Committed p f tree ->
  Forall (eq effectSubscription) pending ->
  Renderable (Fiber.withPending pending (Fiber.withState st f)).
Proof.
  intros (_ & _ & _ & n & Hmemo & _) Hpending.
  split; [ exact Hpending | right ].
  exists n. exact Hmemo.
Qed.

Lemma Committed_renderable_same (p : GuesserProps.t) (f : Fiber.t)
      (tree : Tree.t) :
  Committed p f tree -> Renderable f.
Proof.
  intros (_ & _ & Hpending & n & Hmemo & _).
  split; [ exact Hpending | right ].
  exists n. exact Hmemo.
Qed.

Lemma step_consistent (a : App) (ev : Event) :
  Consistent a -> Consistent (value (step a ev)).
Proof.
  destruct a as [ p f tree | e ]; [ | intros _; exact I ].
  intros Ha. destruct ev as [ p' | i s | ]; simpl.
  - apply renderAndCommit_consistent.
    exact (Committed_renderable_same p f tree Ha).
  - destruct (nth_error (Fiber.pending f) i) as [ h | ]; [ | exact Ha ].
    apply renderAndCommit_consistent.
    apply (Committed_renderable p f tree); [ exact Ha | ].
    apply removeAt_Forall. now destruct Ha as (_ & _ & Hp & _).
  - apply renderAndCommit_consistent.
    destruct Ha as (_ & _ & Hp & n & Hmemo & _).
    split; [ exact Hp | right ]. exists n. exact Hmemo.
Qed.

Lemma run_consistent (evs : list Event) :
  forall a, Consistent a -> Consistent (value (run a evs)).
Proof.
  induction evs as [ | ev evs IH ]; intros a Ha; simpl.
  - exact Ha.
  - rewrite bind_value. apply IH. now apply step_consistent.
Qed.

Lemma session_consistent (p : GuesserProps.t) (evs : list Event) :
  Consistent (value (session p evs)).
Proof.
  unfold session. rewrite bind_value. apply run_consistent.
  unfold mount. apply renderAndCommit_consistent.
  split; [ constructor | now left ].
Qed.

Lemma run_Fallback (evs : list Event) (error : Error) :
  run (Fallback error) evs = (Fallback error, []).
Proof.
  induction evs as [ | ev evs IH ]; simpl; [ reflexivity | ].
  unfold bind. simpl. now rewrite IH.
Qed.

Lemma mount_renders (p : GuesserProps.t) :
  let f1 :=
    Fiber.withMemo (mkMemo [0; 1] (introspectionContextFactory 2)) 3
                   Fiber.initial in
  let e := introspectionEffect (GuesserProps.dataProvider p) true in
  let tree :=
    Tree.mk (GuesserProps.dataProvider p) (introspectionContextFactory 2)
            (GuesserProps.schemaAnalyzer p)
            (LoadingElement (default Loading (GuesserProps.loading p))) in
  mount p
  = (match value e with
     | EffectThrew error => Fallback error
     | EffectReturned =>
         Mounted p (Fiber.withEffectDeps (effectDepsOf p f1) f1) tree
     | EffectPending h =>
         Mounted p (Fiber.withPending [h]
                      (Fiber.withEffectDeps (effectDepsOf p f1) f1)) tree
     end,
     CallUseDisplayOverrideCode :: calls e).
Proof.
  intros f1 e tree. unfold mount.
  rewrite (renderAndCommit_renders p Fiber.initial 2 3 eq_refl eq_refl).
  rewrite commit_due by reflexivity.
  change (introspectionEffect _ _) with e.
  destruct (value e); reflexivity.
Qed.

(** C5.  With a data provider whose [introspect] is not a function, the
    effect throws the configuration error whatever the pending flag, before
    reaching the call; mounting ends in the boundary's fallback with that
    error; and in no continuation of the session is [introspect()] ever
    called. *)
Theorem missing_introspect_is_fatal (p : GuesserProps.t) (evs : list Event) :
  typeof (DataProvider.introspect (GuesserProps.dataProvider p)) <> "function" ->
  (forall flag,
      introspectionEffect (GuesserProps.dataProvider p) flag
      = (EffectThrew configurationError, []))
  /\ mount p = (Fallback configurationError, [CallUseDisplayOverrideCode])
  /\ value (session p evs) = Fallback configurationError
  /\ introspectCalls (calls (session p evs)) = 0.
Proof.
  intros Hty.
  assert (Hmount : mount p
                   = (Fallback configurationError, [CallUseDisplayOverrideCode])).
  { rewrite mount_renders.
    now rewrite (introspectionEffect_throws _ true Hty). }
  split; [ intros flag; now apply introspectionEffect_throws | ].
  split; [ exact Hmount | ].
  unfold session. rewrite bind_value, bind_calls, Hmount. simpl.
  rewrite run_Fallback. split; reflexivity.
Qed.

Lemma missing_introspect_is_fatal_witness :
  mount (GuesserProps.mk 0 None (DataProvider.mk 8 JsUndefined)
           None None None None None (Nodes []) [])
  = (Fallback configurationError, [CallUseDisplayOverrideCode]).
Proof.
  refine (proj1 (proj2 (missing_introspect_is_fatal
                          (GuesserProps.mk 0 None (DataProvider.mk 8 JsUndefined)
                             None None None None None (Nodes []) [])
                          [Rerender
                             (GuesserProps.mk 0 None
                                (DataProvider.mk 8 JsUndefined)
                                None None None None None (Nodes []) []);
                           InvokeIntrospect]
                          _))).
  simpl. discriminate.
Defined.

(** C6.  When the promise returned by [introspect()] is fulfilled with
    [{ data }], the handler the effect attached sets [resources] to
    [data.resources], or to the empty array when that is absent, whatever
    [resources] held before; it sets [loading] and the pending flag to
    [false] and queues nothing on the error cell. *)
Theorem success_replaces_resources
        (dp : DataProvider.t) (flag : bool) (h : Subscription)
        (log : list Call) (payload : Payload.t) (st : State.t) :
  introspectionEffect dp flag = (EffectPending h, log) ->
  let st' := settle (Fulfilled payload) h st in
  State.resources st'
  = nullish (Payload.resources (Payload.data payload)) []
  /\ State.loading st' = false
  /\ State.introspect st' = false
  /\ State.errorUpdates st' = State.errorUpdates st
  /\ (forall other : State.t,
         State.resources (settle (Fulfilled payload) h other)
         = State.resources st').
Proof.
  intros He. apply introspectionEffect_pending in He.
  destruct He as (-> & _). simpl. repeat split.
Qed.

Lemma success_replaces_resources_witness :
  State.resources
    (settle (Fulfilled (Payload.mk (Payload.mkData None)))
            effectSubscription
            (State.mk [mkResource "books" None] true [] true))
  = []
  /\ State.resources
       (settle (Fulfilled
                  (Payload.mk (Payload.mkData
                                 (Some [mkResource "reviews" None]))))
               effectSubscription
               (State.mk [mkResource "books" None] true [] true))
     = [mkResource "reviews" None].
Proof.
  split.
  - exact (proj1 (success_replaces_resources
                    (DataProvider.mk 7 JsFunction) true effectSubscription
                    [CallIntrospect 7]
                    (Payload.mk (Payload.mkData None))
                    (State.mk [mkResource "books" None] true [] true)
                    eq_refl)).
  - exact (proj1 (success_replaces_resources
                    (DataProvider.mk 7 JsFunction) true effectSubscription
                    [CallIntrospect 7]
                    (Payload.mk (Payload.mkData
                                   (Some [mkResource "reviews" None])))
                    (State.mk [mkResource "books" None] true [] true)
                    eq_refl)).
Defined.

Lemma Committed_pending (p : GuesserProps.t) (f : Fiber.t) (tree : Tree.t)
      (i : nat) (h : Subscription) :
  Committed p f tree ->
  nth_error (Fiber.pending f) i = Some h ->
  h = effectSubscription.
Proof.
  intros (_ & _ & Hp & _) Hnth.
  apply nth_error_In in Hnth.
  rewrite Forall_forall in Hp. symmetry. now apply Hp.
Qed.

Lemma session_committed (p : GuesserProps.t) (evs : list Event)
      (p' : GuesserProps.t) (f : Fiber.t) (tree : Tree.t) :
  value (session p evs) = Mounted p' f tree -> Committed p' f tree.
Proof.
  intros H. pose proof (session_consistent p evs) as Hc.
  now rewrite H in Hc.
Qed.

(** C7.  In any mounted state a session can reach, when a promise in
    flight is rejected with [E]: the handler leaves [resources], [loading]
    and the pending flag as they were and queues on the error cell an
    updater that throws [E]; the render that follows throws exactly [E]
    before calling anything, so the boundary shows its fallback with [E];
    [introspect()] is not called again, then or later. *)
Theorem rejection_reaches_boundary
        (p : GuesserProps.t) (evs : list Event)
        (p' : GuesserProps.t) (f : Fiber.t) (tree : Tree.t)
        (i : nat) (h : Subscription) (E : Error) :
  value (session p evs) = Mounted p' f tree ->
  nth_error (Fiber.pending f) i = Some h ->
  let st := Fiber.state f in
  let st' := settle (Rejected E) h st in
  let f' := Fiber.withPending (removeAt i (Fiber.pending f))
                              (Fiber.withState st' f) in
  State.resources st' = State.resources st
  /\ State.loading st' = State.loading st
  /\ State.introspect st' = State.introspect st
  /\ State.errorUpdates st' = [Throws E]
  /\ AdminGuesser p' f' = (inl E, [])
  /\ step (Mounted p' f tree) (Settle i (Rejected E)) = (Fallback E, [])
  /\ (forall evs', run (Fallback E) evs' = (Fallback E, [])).
Proof.
  intros Hreach Hnth st st' f'.
  pose proof (session_committed p evs p' f tree Hreach) as Hc.
  pose proof (Committed_pending p' f tree i h Hc Hnth) as Hh.
  destruct Hc as (Hq & _).
  assert (Hst' : State.errorUpdates st' = [Throws E]).
  { unfold st'. rewrite Hh. simpl. fold st. unfold st. now rewrite Hq. }
  split; [ unfold st'; now rewrite Hh | ].
  split; [ unfold st'; now rewrite Hh | ].
  split; [ unfold st'; now rewrite Hh | ].
  split; [ exact Hst' | ].
  split; [ now apply (AdminGuesser_rethrows p' f' E []) | ].
  split; [ | intros evs'; apply run_Fallback ].
  simpl. rewrite Hnth.
  now apply (renderAndCommit_rethrows p' f' E []).
Qed.

Lemma rejection_reaches_boundary_witness :
  step (value (session (GuesserProps.mk 0 None (DataProvider.mk 7 JsFunction)
                          None None None None None (Nodes []) [])
                       []))
       (Settle 0 (Rejected (MkError "boom")))
  = (Fallback (MkError "boom"), []).
Proof.
  refine (proj1 (proj2 (proj2 (proj2 (proj2 (proj2
            (rejection_reaches_boundary
               (GuesserProps.mk 0 None (DataProvider.mk 7 JsFunction)
                  None None None None None (Nodes []) [])
               [] _ _ _ 0 effectSubscription (MkError "boom")
               eq_refl eq_refl))))))).
Defined.

Lemma nth_error_app_last {A : Type} (l : list A) (x : A) :
  nth_error (l ++ [x]) (List.length l) = Some x.
Proof. induction l as [ | y l IH ]; simpl; auto. Qed.

Lemma removeAt_app_last {A : Type} (l : list A) (x : A) :
  removeAt (List.length l) (l ++ [x]) = l.
Proof. induction l as [ | y l IH ]; simpl; [ reflexivity | now rewrite IH ]. Qed.

(** A render and commit of a committed fiber whose state cells were just
    written, the error cell left alone. *)
Lemma renderAndCommit_committed
      (p q : GuesserProps.t) (f : Fiber.t) (tree : Tree.t)
      (st : State.t) (pending : list Subscription) :
  Committed p f tree ->
  State.errorUpdates st = [] ->
  let g := Fiber.withPending pending (Fiber.withState st f) in
  let r := AdminResourcesGuesser (reconcilerProps q st) in
  let tree' :=
    Tree.mk (GuesserProps.dataProvider q) (Tree.introspectionContext tree)
            (GuesserProps.schemaAnalyzer q) (value r) in
  renderAndCommit q g
  = (match value (commit q g) with
     | inl error => Fallback error
     | inr g2 => Mounted q g2 tree'
     end,
     calls r ++ calls (commit q g)).
Proof.
  intros (_ & _ & _ & n & Hmemo & Htree) Hq g r tree'.
  assert (Hm : useMemo introspectionContextFactory (memoDepsOf g)
                       (Fiber.memo g) (Fiber.nextRef g)
               = (mkMemo (memoDepsOf g) (introspectionContextFactory n),
                  Fiber.nextRef g)).
  { change (Fiber.memo g) with (Fiber.memo f).
    change (memoDepsOf g) with (memoDepsOf f).
    rewrite Hmemo. simpl. now rewrite deps_eqb_refl. }
  rewrite (renderAndCommit_renders q g n (Fiber.nextRef g) Hq Hm).
  unfold tree'. rewrite Htree.
  change (Fiber.withMemo
            (mkMemo (memoDepsOf g) (introspectionContextFactory n))
            (Fiber.nextRef g) g)
    with (Fiber.mk (Fiber.state g) (Fiber.setLoadingRef g)
                   (Fiber.setIntrospectRef g) (Fiber.effectDeps g)
                   (Some (mkMemo (memoDepsOf f) (introspectionContextFactory n)))
                   (Fiber.pending g) (Fiber.nextRef g)).
  rewrite <- Hmemo. reflexivity.
Qed.

(** Rendering a committed fiber again, with any props, keeps the
    capability the tree already carries. *)
Lemma rerender_committed
      (p q : GuesserProps.t) (f : Fiber.t) (tree : Tree.t) :
  Committed p f tree ->
  let r := AdminResourcesGuesser (reconcilerProps q (Fiber.state f)) in
  let tree' :=
    Tree.mk (GuesserProps.dataProvider q) (Tree.introspectionContext tree)
            (GuesserProps.schemaAnalyzer q) (value r) in
  renderAndCommit q f
  = (match value (commit q f) with
     | inl error => Fallback error
     | inr g2 => Mounted q g2 tree'
     end,
     calls r ++ calls (commit q f)).
Proof.
  intros Hc r tree'.
  pose proof (renderAndCommit_committed p q f tree (Fiber.state f)
                (Fiber.pending f) Hc (proj1 Hc)) as H.
  destruct f. exact H.
Qed.

(** C10.  The effect checks the data provider before it looks at the
    pending flag.  So, after a completed fetch (flag [false]), rendering
    with another data provider that has no [introspect] function runs the
    effect again and ends in the fallback with the configuration error,
    although no fetch was due.  With a valid provider and the flag [false]
    the effect returns without calling [introspect()]; one run of the
    effect, and one event of the application, call it at most once. *)
Theorem validation_precedes_pending_guard
        (p : GuesserProps.t) (evs : list Event)
        (p' : GuesserProps.t) (f : Fiber.t) (tree : Tree.t)
        (q : GuesserProps.t) :
  value (session p evs) = Mounted p' f tree ->
  State.introspect (Fiber.state f) = false ->
  typeof (DataProvider.introspect (GuesserProps.dataProvider p')) = "function" ->
  typeof (DataProvider.introspect (GuesserProps.dataProvider q)) <> "function" ->
  DataProvider.ref (GuesserProps.dataProvider q)
  <> DataProvider.ref (GuesserProps.dataProvider p') ->
  introspectionEffect (GuesserProps.dataProvider q) false
  = (EffectThrew configurationError, [])
  /\ introspectionEffect (GuesserProps.dataProvider q) true
     = (EffectThrew configurationError, [])
  /\ value (step (Mounted p' f tree) (Rerender q))
     = Fallback configurationError
  /\ introspectCalls (calls (step (Mounted p' f tree) (Rerender q))) = 0
  /\ introspectionEffect (GuesserProps.dataProvider p') false
     = (EffectReturned, [])
  /\ (forall dp flag,
         introspectCalls (calls (introspectionEffect dp flag)) <= 1)
  /\ (forall a ev, introspectCalls (calls (step a ev)) <= 1).
Proof.
  intros Hreach Hflag Hgood Hbad Href.
  pose proof (session_committed p evs p' f tree Hreach) as Hc.
  split; [ now apply introspectionEffect_throws | ].
  split; [ now apply introspectionEffect_throws | ].
  assert (Hdue : effectDue q f = true).
  { destruct Hc as (_ & Hdeps & _). unfold effectDue. rewrite Hdeps.
    apply negb_true_iff. apply not_true_is_false. intros Heq.
    apply effectDeps_eqb_eq in Heq. unfold effectDepsOf in Heq.
    inversion Heq. congruence. }
  simpl. rewrite (rerender_committed p' q f tree Hc).
  rewrite (commit_due q f Hdue).
  rewrite (introspectionEffect_throws _ _ Hbad). simpl.
  split; [ reflexivity | ].
  split.
  { rewrite app_nil_r. apply AdminResourcesGuesser_no_introspect. }
  split; [ now apply introspectionEffect_returns | ].
  split; [ apply introspectionEffect_at_most_once | apply step_at_most_once ].
Qed.

Lemma validation_precedes_pending_guard_witness :
  value (step (value (session
                        (GuesserProps.mk 0 None (DataProvider.mk 7 JsFunction)
                           None None None None None (Nodes []) [])
                        [Settle 0 (Fulfilled (Payload.mk (Payload.mkData None)))]))
              (Rerender (GuesserProps.mk 0 None (DataProvider.mk 8 JsObject)
                           None None None None None (Nodes []) [])))
  = Fallback configurationError.
Proof.
  refine (proj1 (proj2 (proj2
            (validation_precedes_pending_guard
               (GuesserProps.mk 0 None (DataProvider.mk 7 JsFunction)
                  None None None None None (Nodes []) [])
               [Settle 0 (Fulfilled (Payload.mk (Payload.mkData None)))]
               _ _ _
               (GuesserProps.mk 0 None (DataProvider.mk 8 JsObject)
                  None None None None None (Nodes []) [])
               eq_refl eq_refl eq_refl _ _)))).
  - simpl. discriminate.
  - simpl. discriminate.
Defined.

(** Invoking the capability after a completed fetch: one render showing
    the loading page, then the effect, which fetches. *)
Lemma step_invoke (p : GuesserProps.t) (f : Fiber.t) (tree : Tree.t) :
  Committed p f tree ->
  typeof (DataProvider.introspect (GuesserProps.dataProvider p)) = "function" ->
  State.introspect (Fiber.state f) = false ->
  let st1 := setIntrospect true (setLoading true (Fiber.state f)) in
  let ref := DataProvider.ref (GuesserProps.dataProvider p) in
  step (Mounted p f tree) InvokeIntrospect
  = (Mounted p
       (Fiber.withPending (Fiber.pending f ++ [effectSubscription])
          (Fiber.withEffectDeps (true, ref) (Fiber.withState st1 f)))
       (Tree.mk (GuesserProps.dataProvider p) (Tree.introspectionContext tree)
                (GuesserProps.schemaAnalyzer p)
                (LoadingElement (default Loading (GuesserProps.loading p)))),
     [CallUseDisplayOverrideCode; CallIntrospect ref]).
Proof.
  intros Hc Hgood Hflag st1 ref.
  pose proof Hc as (Hq & Hdeps & _ & n & _ & Htree).
  assert (Hst : Capability.introspect (Tree.introspectionContext tree)
                                      (Fiber.state f) = st1)
    by now rewrite Htree.
  simpl. rewrite Hst.
  change (Fiber.withState st1 f)
    with (Fiber.withPending (Fiber.pending f) (Fiber.withState st1 f)).
  rewrite (renderAndCommit_committed p p f tree st1 (Fiber.pending f) Hc Hq).
  rewrite commit_due.
  2: { unfold effectDue. simpl. rewrite Hdeps. unfold effectDepsOf.
       rewrite Hflag. reflexivity. }
  simpl. rewrite (introspectionEffect_fetches _ Hgood). reflexivity.
Qed.

(** A promise in flight is fulfilled while the pending flag is set: the
    state is written, the tree is rendered from it, and the effect, run
    because the flag changed, returns without fetching. *)
Lemma step_fulfil (p : GuesserProps.t) (f : Fiber.t) (tree : Tree.t)
      (i : nat) (h : Subscription) (payload : Payload.t) :
  Committed p f tree ->
  typeof (DataProvider.introspect (GuesserProps.dataProvider p)) = "function" ->
  State.introspect (Fiber.state f) = true ->
  nth_error (Fiber.pending f) i = Some h ->
  let st2 := thenHandler payload (Fiber.state f) in
  let ref := DataProvider.ref (GuesserProps.dataProvider p) in
  let r := AdminResourcesGuesser (reconcilerProps p st2) in
  step (Mounted p f tree) (Settle i (Fulfilled payload))
  = (Mounted p
       (Fiber.withEffectDeps (false, ref)
          (Fiber.withPending (removeAt i (Fiber.pending f))
             (Fiber.withState st2 f)))
       (Tree.mk (GuesserProps.dataProvider p) (Tree.introspectionContext tree)
                (GuesserProps.schemaAnalyzer p) (value r)),
     calls r).
Proof.
  intros Hc Hgood Hflag Hnth st2 ref r.
  pose proof (Committed_pending p f tree i h Hc Hnth) as ->.
  pose proof Hc as (Hq & Hdeps & _).
  simpl. rewrite Hnth. simpl. fold st2.
  rewrite (renderAndCommit_committed p p f tree st2
             (removeAt i (Fiber.pending f)) Hc Hq).
  rewrite commit_due.
  2: { unfold effectDue. simpl. rewrite Hdeps. unfold effectDepsOf.
       rewrite Hflag. reflexivity. }
  simpl. rewrite (introspectionEffect_returns _ Hgood). simpl.
  fold r. now rewrite app_nil_r.
Qed.

Lemma useMemo_keeps {V : Type} (factory : nat -> V) (deps : list nat)
      (c : MemoCell V) (fresh : nat) :
  memoDeps c = deps -> useMemo factory deps (Some c) fresh = (c, fresh).
Proof. intros H. simpl. now rewrite H, deps_eqb_refl. Qed.

Lemma useMemo_renews {V : Type} (factory : nat -> V) (deps : list nat)
      (c : MemoCell V) (fresh : nat) :
  fst (useMemo factory deps (Some c) fresh) <> c -> memoDeps c <> deps.
Proof.
  intros Hne Heq. apply Hne. now rewrite (useMemo_keeps factory deps c fresh Heq).
Qed.

(** C8.  In a mounted state reached by a session, with a valid data
    provider and the previous fetch completed: invoking the capability read
    from the context sets [loading] and the pending flag to [true], keeps
    [resources], and makes the effect call [introspect()] once; when that
    promise is fulfilled, [loading] and the flag are [false] again and
    [resources] is what the payload carried (or empty), with no further
    call.  The capability in the tree is the same object throughout, and in
    any render the memoised capability is the cached one unless a
    dependency of the memo differs from the cached ones. *)
Theorem introspection_capability_refetches
        (p : GuesserProps.t) (evs : list Event)
        (p' : GuesserProps.t) (f : Fiber.t) (tree : Tree.t)
        (payload : Payload.t) :
  value (session p evs) = Mounted p' f tree ->
  typeof (DataProvider.introspect (GuesserProps.dataProvider p')) = "function" ->
  State.introspect (Fiber.state f) = false ->
  let a0 := Mounted p' f tree in
  let st1 :=
    Capability.introspect (Tree.introspectionContext tree) (Fiber.state f) in
  let invoked := step a0 InvokeIntrospect in
  let settled :=
    step (value invoked)
         (Settle (List.length (Fiber.pending f)) (Fulfilled payload)) in
  State.loading st1 = true
  /\ State.introspect st1 = true
  /\ State.resources st1 = State.resources (Fiber.state f)
  /\ appState (value invoked) = Some st1
  /\ introspectCalls (calls invoked) = 1
  /\ (exists st2,
         appState (value settled) = Some st2
         /\ State.loading st2 = false
         /\ State.introspect st2 = false
         /\ State.resources st2
            = nullish (Payload.resources (Payload.data payload)) [])
  /\ introspectCalls (calls settled) = 0
  /\ appCapability (value invoked) = appCapability a0
  /\ appCapability (value settled) = appCapability a0
  /\ (forall (q : GuesserProps.t) (g : Fiber.t) (c : MemoCell Capability.t),
         State.errorUpdates (Fiber.state g) = [] ->
         Fiber.memo g = Some c ->
         exists t g',
           value (AdminGuesser q g) = inr (t, g')
           /\ (memoDeps c = memoDepsOf g ->
               Tree.introspectionContext t = memoValue c)
           /\ (Capability.ref (Tree.introspectionContext t)
               <> Capability.ref (memoValue c) ->
               memoDeps c <> memoDepsOf g)).
Proof.
  intros Hreach Hgood Hflag a0 st1 invoked settled.
  pose proof (session_committed p evs p' f tree Hreach) as Hc.
  pose proof Hc as (_ & _ & _ & n & _ & Htree).
  assert (Hst1 : st1 = setIntrospect true (setLoading true (Fiber.state f)))
    by (unfold st1; now rewrite Htree).
  assert (Hinvoked : invoked = step a0 InvokeIntrospect) by reflexivity.
  unfold a0 in Hinvoked.
  rewrite (step_invoke p' f tree Hc Hgood Hflag) in Hinvoked.
  assert (Hc1 : Consistent (value invoked)).
  { unfold invoked. now apply step_consistent. }
  assert (Hsettled : settled
                     = step (value invoked)
                            (Settle (List.length (Fiber.pending f))
                                    (Fulfilled payload)))
    by reflexivity.
  rewrite Hinvoked in Hc1, Hsettled. simpl value in Hc1, Hsettled.
  rewrite (step_fulfil _ _ _ (List.length (Fiber.pending f))
             effectSubscription payload Hc1 Hgood eq_refl
             (nth_error_app_last (Fiber.pending f) effectSubscription))
    in Hsettled.
  rewrite Hinvoked, Hsettled, Hst1.
  repeat (split; [ reflexivity | ]).
  split.
  { eexists. repeat split. }
  split; [ apply AdminResourcesGuesser_no_introspect | ].
  repeat (split; [ reflexivity | ]).
  intros q g c Hq Hmemo.
  rewrite (AdminGuesser_renders q g Hq), Hmemo.
  do 2 eexists. split; [ reflexivity | ].
  simpl Tree.introspectionContext.
  assert (Hkeep : memoDeps c = memoDepsOf g ->
                  memoValue
                    (fst (useMemo introspectionContextFactory (memoDepsOf g)
                                  (Some c) (Fiber.nextRef g)))
                  = memoValue c).
  { intros Hd. now rewrite (useMemo_keeps _ _ c _ Hd). }
  split; [ exact Hkeep | ].
  intros Hne Hd. apply Hne. f_equal. exact (Hkeep Hd).
Qed.

Lemma introspection_capability_refetches_witness :
  exists st2,
    appState
      (value
         (step
            (value
               (step
                  (value
                     (session
                        (GuesserProps.mk 0 None (DataProvider.mk 7 JsFunction)
                           None None None None None (Nodes []) [])
                        [Settle 0 (Fulfilled
                                     (Payload.mk
                                        (Payload.mkData
                                           (Some [mkResource "books" None]))))]))
                  InvokeIntrospect))
            (Settle 0 (Fulfilled
                         (Payload.mk
                            (Payload.mkData
                               (Some [mkResource "reviews" None])))))))
    = Some st2
    /\ State.loading st2 = false
    /\ State.introspect st2 = false
    /\ State.resources st2 = [mkResource "reviews" None].
Proof.
  refine (proj1 (proj2 (proj2 (proj2 (proj2 (proj2
            (introspection_capability_refetches
               (GuesserProps.mk 0 None (DataProvider.mk 7 JsFunction)
                  None None None None None (Nodes []) [])
               [Settle 0 (Fulfilled
                            (Payload.mk
                               (Payload.mkData
                                  (Some [mkResource "books" None]))))]
               _ _ _
               (Payload.mk (Payload.mkData (Some [mkResource "reviews" None])))
               eq_refl eq_refl eq_refl))))))).
Defined.

(* ===================================================================== *)
(** * Further properties *)
(* ===================================================================== *)

(** ** The override snippet *)

Lemma string_app_nil_r (s : string) : (s ++ EmptyString)%string = s.
Proof. induction s as [ | c s IH ]; simpl; [ reflexivity | now rewrite IH ]. Qed.

Lemma string_app_assoc (a b c : string) :
  ((a ++ b) ++ c)%string = (a ++ (b ++ c))%string.
Proof. induction a as [ | x a IH ]; simpl; [ reflexivity | now rewrite IH ]. Qed.

Lemma concat_cons (x : string) (xs : list string) :
  String.concat EmptyString (x :: xs)
  = (x ++ String.concat EmptyString xs)%string.
Proof.
  destruct xs as [ | y ys ]; simpl; [ now rewrite string_app_nil_r | reflexivity ].
Qed.

Lemma string_length_app (a b : string) :
  String.length (a ++ b)%string = String.length a + String.length b.
Proof. induction a as [ | x a IH ]; simpl; [ reflexivity | now rewrite IH ]. Qed.

Lemma fold_overrideLine (rs : list Resource) :
  forall code,
    fold_left (fun code r => (code ++ overrideLine r)%string) rs code
    = (code ++ String.concat EmptyString (map overrideLine rs))%string.
Proof.
  induction rs as [ | r rs IH ]; intros code.
  - simpl. now rewrite string_app_nil_r.
  - cbn [fold_left map]. rewrite IH, concat_cons. apply string_app_assoc.
Qed.

(** X1.  The snippet is the text "If you want to override at least one
    resource, paste this content in the <AdminGuesser> component of your
    app:" and two line feeds, followed, for each resource in order, by a
    line made of [<ResourceGuesser name={], the resource's name between
    double quotes, [} />] and a line feed.  So the snippet for two lists
    put together is the snippet for the first followed by the lines of the
    second, for no resource it is the header alone, and its length is the
    header's 112 characters plus 30 and the name's length per resource. *)
Theorem getOverrideCode_lists_resources (rs more : list Resource) :
  let lf := String (ascii_of_nat 10) EmptyString in
  let quote := String (ascii_of_nat 34) EmptyString in
  let header :=
    ("If you want to override at least one resource, paste this content in the <AdminGuesser> component of your app:"
     ++ lf ++ lf)%string in
  let line := fun r : Resource =>
    ("<ResourceGuesser name={" ++ quote ++ name r ++ quote ++ "} />" ++ lf)%string in
  getOverrideCode rs
  = (header ++ String.concat EmptyString (map line rs))%string
  /\ getOverrideCode (rs ++ more)
     = (getOverrideCode rs
        ++ String.concat EmptyString (map line more))%string
  /\ getOverrideCode [] = header
  /\ String.length (getOverrideCode rs)
     = 112 + list_sum (map (fun r => 30 + String.length (name r)) rs)
  /\ getOverrideCode [mkResource "books" None; mkResource "reviews" (Some true)]
     = (header
        ++ "<ResourceGuesser name={" ++ quote ++ "books" ++ quote ++ "} />" ++ lf
        ++ "<ResourceGuesser name={" ++ quote ++ "reviews" ++ quote ++ "} />"
        ++ lf)%string.
Proof.
  intros lf quote header line.
  assert (Hall : forall l,
             getOverrideCode l
             = (header ++ String.concat EmptyString (map line l))%string).
  { intros l. unfold getOverrideCode. apply fold_overrideLine. }
  split; [ apply Hall | ].
  split.
  { unfold getOverrideCode. rewrite fold_left_app. apply fold_overrideLine. }
  split; [ reflexivity | ].
  split; [ | reflexivity ].
  rewrite Hall, string_length_app.
  change (String.length header) with 112. f_equal.
  induction rs as [ | r rs IH ]; [ reflexivity | ].
  cbn [map list_sum fold_right]. rewrite concat_cons, string_length_app, IH.
  f_equal. unfold line. rewrite !string_length_app. simpl. lia.
Qed.


Lemma NoDup_map_filter {A B : Type} (f : A -> B) (keep : A -> bool)
      (l : list A) :
  NoDup (map f l) -> NoDup (map f (filter keep l)).
Proof.
  induction l as [ | x l IH ]; simpl; intros H; [ constructor | ].
  inversion H as [ | y ys Hnotin Hnodup ]; subst.
  destruct (keep x); simpl; [ | now apply IH ].
  constructor; [ | now apply IH ].
  intros Hin. apply Hnotin.
  apply in_map_iff in Hin. destruct Hin as (z & Hz & Hzin).
  apply filter_In in Hzin. apply in_map_iff. exists z. tauto.
Qed.

(** X3.  When the resources have pairwise distinct names, the generated
    elements have pairwise distinct keys, with or without the deprecated
    ones. *)
Theorem distinct_names_give_distinct_keys (p : Props.t) :
  NoDup (map name (Props.resources p)) ->
  NoDup (map keyOf
             (map guessedElement
                  (guessResourcesOf (Props.includeDeprecated p)
                                    (Props.resources p)))).
Proof.
  intros Hnames. rewrite map_map. simpl.
  assert (Hsome : forall l : list Resource,
             NoDup (map name l) -> NoDup (map (fun r => Some (name r)) l)).
  { induction l as [ | r l IH ]; simpl; intros Hl; [ constructor | ].
    inversion Hl as [ | y ys Hnotin Hnodup ]; subst.
    constructor; [ | now apply IH ].
    intros Hin. apply Hnotin.
    apply in_map_iff in Hin. destruct Hin as (z & Hz & Hzin).
    apply in_map_iff. exists z. split; [ congruence | exact Hzin ]. }
  apply Hsome. unfold guessResourcesOf.
  destruct (Props.includeDeprecated p); [ exact Hnames | ].
  now apply NoDup_map_filter.
Qed.

Lemma distinct_names_give_distinct_keys_witness :
  NoDup [Some "books"; Some "authors"].
Proof.
  refine (distinct_names_give_distinct_keys
            (Props.mk None None (Nodes []) false
               [mkResource "books" None; mkResource "reviews" (Some true);
                mkResource "authors" (Some false)]
               false [])
            _).
  simpl. repeat constructor; simpl; intuition discriminate.
Defined.

(** ** What a commit and an event do to a mounted application *)

Lemma commit_fiber (q : GuesserProps.t) (g g2 : Fiber.t) :
  value (commit q g) = inr g2 ->
  Fiber.state g2 = Fiber.state g
  /\ (Fiber.pending g2 = Fiber.pending g
      \/ Fiber.pending g2 = Fiber.pending g ++ [effectSubscription])
  /\ (effectDue q g = true ->
      State.introspect (Fiber.state g) = true ->
      Fiber.pending g2 = Fiber.pending g ++ [effectSubscription]).
Proof.
  destruct (effectDue q g) eqn:Hdue.
  - rewrite (commit_due q g Hdue). cbn [value fst].
    destruct (introspectionEffect (GuesserProps.dataProvider q)
                (State.introspect (Fiber.state g)))
      as [ [ e | | h ] log ] eqn:He; cbn [value fst]; intros H;
      inversion H; subst; clear H.
    + unfold introspectionEffect in He.
      destruct (State.introspect (Fiber.state g));
        [ destruct (typeof (DataProvider.introspect
                              (GuesserProps.dataProvider q))
                    =? "function")%string; discriminate | ].
      simpl. repeat split; auto. discriminate.
    + apply introspectionEffect_pending in He. destruct He as (-> & _).
      simpl. repeat split; auto.
  - rewrite (commit_not_due q g Hdue). cbn [value fst]. intros H.
    inversion H; subst. repeat split; auto. discriminate.
Qed.

Lemma commit_no_fetch (q : GuesserProps.t) (g : Fiber.t) :
  State.introspect (Fiber.state g) = false ->
  introspectCalls (calls (commit q g)) = 0.
Proof.
  intros Hflag. unfold commit. destruct (effectDue q g); [ | reflexivity ].
  rewrite Hflag. unfold introspectionEffect.
  destruct (typeof (DataProvider.introspect (GuesserProps.dataProvider q))
            =? "function")%string; reflexivity.
Qed.

Lemma step_cases (p : GuesserProps.t) (f : Fiber.t) (tree : Tree.t)
      (ev : Event) :
  Committed p f tree ->
  match ev with
  | Rerender q =>
      rendersFrom q f tree (Fiber.state f) (Fiber.pending f)
                  (step (Mounted p f tree) ev)
  | Settle i (Fulfilled payload) =>
      match nth_error (Fiber.pending f) i with
      | Some _ =>
          rendersFrom p f tree (thenHandler payload (Fiber.state f))
                      (removeAt i (Fiber.pending f))
                      (step (Mounted p f tree) ev)
      | None => step (Mounted p f tree) ev = (Mounted p f tree, [])
      end
  | Settle i (Rejected E) =>
      match nth_error (Fiber.pending f) i with
      | Some _ => step (Mounted p f tree) ev = (Fallback E, [])
      | None => step (Mounted p f tree) ev = (Mounted p f tree, [])
      end
  | InvokeIntrospect =>
      rendersFrom p f tree
                  (setIntrospect true (setLoading true (Fiber.state f)))
                  (Fiber.pending f)
                  (step (Mounted p f tree) ev)
  end.
Proof.
  intros Hc. pose proof Hc as (Hq & _ & _ & n & _ & Htree).
  destruct ev as [ q | i s | ].
  - split; [ exact Hq | ].
    simpl. rewrite (rerender_committed p q f tree Hc).
    destruct f; reflexivity.
  - destruct s as [ payload | E ];
      destruct (nth_error (Fiber.pending f) i) as [ h | ] eqn:Hnth;
      try (simpl; rewrite Hnth; reflexivity).
    + pose proof (Committed_pending p f tree i h Hc Hnth) as ->.
      split; [ exact Hq | ].
      simpl. rewrite Hnth.
      apply (renderAndCommit_committed p p f tree); [ exact Hc | exact Hq ].
    + pose proof (Committed_pending p f tree i h Hc Hnth) as ->.
      simpl. rewrite Hnth.
      apply (renderAndCommit_rethrows _ _ E []).
      simpl. now rewrite Hq.
  - assert (Hst : Capability.introspect (Tree.introspectionContext tree)
                                        (Fiber.state f)
                  = setIntrospect true (setLoading true (Fiber.state f)))
      by now rewrite Htree.
    split; [ exact Hq | ].
    cbn [step]. rewrite Hst.
    exact (renderAndCommit_committed p p f tree
             (setIntrospect true (setLoading true (Fiber.state f)))
             (Fiber.pending f) Hc Hq).
Qed.

Lemma run_invariant (I : App -> Prop) :
  (forall a ev, Consistent a -> I a -> I (value (step a ev))) ->
  forall evs a, Consistent a -> I a -> I (value (run a evs)).
Proof.
  intros Hstep. induction evs as [ | ev evs IH ]; intros a Hc Ha; simpl.
  - exact Ha.
  - rewrite bind_value. apply IH; [ now apply step_consistent | now apply Hstep ].
Qed.

Lemma mount_consistent (p : GuesserProps.t) : Consistent (value (mount p)).
Proof.
  unfold mount. apply renderAndCommit_consistent.
  split; [ constructor | now left ].
Qed.

Lemma session_invariant (I : App -> Prop) :
  (forall p, I (value (mount p))) ->
  (forall a ev, Consistent a -> I a -> I (value (step a ev))) ->
  forall p evs, I (value (session p evs)).
Proof.
  intros Hmount Hstep p evs. unfold session. rewrite bind_value.
  apply run_invariant; [ exact Hstep | apply mount_consistent | apply Hmount ].
Qed.

Lemma run_app (evs more : list Event) :
  forall a, value (run a (evs ++ more)) = value (run (value (run a evs)) more).
Proof.
  induction evs as [ | ev evs IH ]; intros a; simpl; [ reflexivity | ].
  rewrite !bind_value. apply IH.
Qed.

Lemma session_app (p : GuesserProps.t) (evs more : list Event) :
  value (session p (evs ++ more))
  = value (run (value (session p evs)) more).
Proof. unfold session. rewrite !bind_value. apply run_app. Qed.

Lemma rendersFrom_mounted (q : GuesserProps.t) (f : Fiber.t) (tree : Tree.t)
      (st : State.t) (pend : list Subscription) (r : Logged App)
      (q2 : GuesserProps.t) (g2 : Fiber.t) (t2 : Tree.t) :
  rendersFrom q f tree st pend r ->
  value r = Mounted q2 g2 t2 ->
  q2 = q
  /\ Fiber.state g2 = st
  /\ (Fiber.pending g2 = pend
      \/ Fiber.pending g2 = pend ++ [effectSubscription])
  /\ (effectDue q (Fiber.withPending pend (Fiber.withState st f)) = true ->
      State.introspect st = true ->
      Fiber.pending g2 = pend ++ [effectSubscription])
  /\ t2 = Tree.mk (GuesserProps.dataProvider q)
                  (Tree.introspectionContext tree)
                  (GuesserProps.schemaAnalyzer q)
                  (value (AdminResourcesGuesser (reconcilerProps q st))).
Proof.
  intros (_ & ->). cbn [value fst].
  destruct (value (commit q (Fiber.withPending pend (Fiber.withState st f))))
    as [ e | g ] eqn:Hcommit; [ discriminate | ].
  intros H. injection H as Hq2 Hg2 Ht2. subst q2 g2 t2.
  destruct (commit_fiber q _ g Hcommit) as (Hstate & Hpend & Hdue).
  repeat split; assumption.
Qed.

Lemma rendersFrom_calls (q : GuesserProps.t) (f : Fiber.t) (tree : Tree.t)
      (st : State.t) (pend : list Subscription) (r : Logged App) :
  rendersFrom q f tree st pend r ->
  introspectCalls (calls r)
  = introspectCalls
      (calls (commit q (Fiber.withPending pend (Fiber.withState st f)))).
Proof.
  intros (_ & ->). cbn [calls snd].
  now rewrite introspectCalls_app, AdminResourcesGuesser_no_introspect.
Qed.

Lemma step_awaited (a : App) (ev : Event) :
  Consistent a -> Awaited a -> Awaited (value (step a ev)).
Proof.
  destruct a as [ p f tree | e ]; [ | intros _ _; exact I ].
  intros Hc (Hflags & Hpend).
  pose proof (step_cases p f tree ev Hc) as Hstep.
  pose proof Hc as (_ & Hdeps & _).
  destruct (value (step (Mounted p f tree) ev)) as [ q2 g2 t2 | e ] eqn:Hv;
    [ | exact I ].
  destruct ev as [ q | i [ payload | E ] | ].
  - destruct (rendersFrom_mounted _ _ _ _ _ _ _ _ _ Hstep Hv)
      as (_ & Hst & Hp & _).
    simpl. rewrite Hst. split; [ exact Hflags | ].
    intros Hflag. specialize (Hpend Hflag).
    destruct Hp as [ -> | -> ]; [ exact Hpend | ].
    intros Hnil. now apply app_eq_nil in Hnil.
  - destruct (nth_error (Fiber.pending f) i).
    + destruct (rendersFrom_mounted _ _ _ _ _ _ _ _ _ Hstep Hv)
        as (_ & Hst & _).
      simpl. rewrite Hst. simpl. split; [ reflexivity | discriminate ].
    + rewrite Hstep in Hv. inversion Hv; subst. now split.
  - destruct (nth_error (Fiber.pending f) i).
    + rewrite Hstep in Hv. discriminate.
    + rewrite Hstep in Hv. inversion Hv; subst. now split.
  - destruct (rendersFrom_mounted _ _ _ _ _ _ _ _ _ Hstep Hv)
      as (_ & Hst & Hp & Hdue & _).
    simpl. rewrite Hst. simpl. split; [ reflexivity | ].
    intros _.
    destruct (State.introspect (Fiber.state f)) eqn:Hflag.
    + specialize (Hpend eq_refl).
      destruct Hp as [ -> | -> ]; [ exact Hpend | ].
      intros Hnil. now apply app_eq_nil in Hnil.
    + rewrite Hdue; [ | | reflexivity ].
      * intros Hnil. apply app_eq_nil in Hnil. now destruct Hnil.
      * unfold effectDue. simpl. rewrite Hdeps. unfold effectDepsOf.
        rewrite Hflag. reflexivity.
Qed.

Lemma mount_mounted (p : GuesserProps.t) (q : GuesserProps.t)
      (f : Fiber.t) (tree : Tree.t) :
  value (mount p) = Mounted q f tree ->
  q = p
  /\ Fiber.state f = State.initial
  /\ Fiber.pending f = [effectSubscription]
  /\ tree = Tree.mk (GuesserProps.dataProvider p)
                    (introspectionContextFactory 2)
                    (GuesserProps.schemaAnalyzer p)
                    (LoadingElement (default Loading (GuesserProps.loading p))).
Proof.
  rewrite mount_renders. cbn [value fst].
  destruct (introspectionEffect (GuesserProps.dataProvider p) true)
    as [ [ e | | h ] log ] eqn:He; cbn [value fst]; intros H.
  - discriminate.
  - unfold introspectionEffect in He.
    destruct (typeof (DataProvider.introspect (GuesserProps.dataProvider p))
              =? "function")%string; discriminate.
  - apply introspectionEffect_pending in He. destruct He as (-> & _).
    inversion H; subst. repeat split.
Qed.

Lemma session_awaited (p : GuesserProps.t) (evs : list Event) :
  Awaited (value (session p evs)).
Proof.
  apply session_invariant; [ | exact step_awaited ].
  clear p evs. intros p.
  destruct (value (mount p)) as [ q f tree | e ] eqn:Hv; [ | exact I ].
  destruct (mount_mounted p q f tree Hv) as (_ & Hst & Hp & _).
  simpl. rewrite Hst, Hp. simpl. split; [ reflexivity | discriminate ].
Qed.

Lemma step_shown (a : App) (ev : Event) :
  Consistent a -> Shown a -> Shown (value (step a ev)).
Proof.
  destruct a as [ p f tree | e ]; [ | intros _ _; exact I ].
  intros Hc Hshown.
  pose proof (step_cases p f tree ev Hc) as Hstep.
  destruct (value (step (Mounted p f tree) ev)) as [ q2 g2 t2 | e ] eqn:Hv;
    [ | exact I ].
  assert (Hrender :
            forall q st pend,
              rendersFrom q f tree st pend (step (Mounted p f tree) ev) ->
              Shown (Mounted q2 g2 t2)).
  { intros q st pend Hr.
    destruct (rendersFrom_mounted _ _ _ _ _ _ _ _ _ Hr Hv)
      as (-> & Hst & _ & _ & ->).
    simpl. rewrite Hst. repeat split. }
  destruct ev as [ q | i [ payload | E ] | ].
  - exact (Hrender _ _ _ Hstep).
  - destruct (nth_error (Fiber.pending f) i).
    + exact (Hrender _ _ _ Hstep).
    + rewrite Hstep in Hv. inversion Hv; subst. exact Hshown.
  - destruct (nth_error (Fiber.pending f) i).
    + rewrite Hstep in Hv. discriminate.
    + rewrite Hstep in Hv. inversion Hv; subst. exact Hshown.
  - exact (Hrender _ _ _ Hstep).
Qed.

Lemma session_shown (p : GuesserProps.t) (evs : list Event) :
  Shown (value (session p evs)).
Proof.
  apply session_invariant; [ | exact step_shown ].
  clear p evs. intros p.
  destruct (value (mount p)) as [ q f tree | e ] eqn:Hv; [ | exact I ].
  destruct (mount_mounted p q f tree Hv) as (-> & Hst & _ & ->).
  simpl. rewrite Hst. repeat split.
Qed.

(** ** Mounting *)

(** X4.  Mounting with a data provider that has an [introspect] function
    shows the loading page, whatever the children are, calls
    [introspect()] exactly once on that provider, and leaves the state
    cells at their initial values with that one promise to settle. *)
Theorem mount_shows_loading_and_fetches_once (p : GuesserProps.t) :
  typeof (DataProvider.introspect (GuesserProps.dataProvider p)) = "function" ->
  exists f tree,
    mount p
    = (Mounted p f tree,
       [CallUseDisplayOverrideCode;
        CallIntrospect (DataProvider.ref (GuesserProps.dataProvider p))])
    /\ Fiber.state f = State.initial
    /\ Fiber.pending f = [effectSubscription]
    /\ Tree.ui tree
       = LoadingElement (default Loading (GuesserProps.loading p))
    /\ Tree.dataProvider tree = GuesserProps.dataProvider p.
Proof.
  intros Hgood. rewrite mount_renders.
  rewrite (introspectionEffect_fetches _ Hgood). cbn [value calls fst snd].
  do 2 eexists. split; [ reflexivity | ]. repeat split.
Qed.

Lemma mount_shows_loading_and_fetches_once_witness :
  exists f tree,
    mount (GuesserProps.mk 0 (Some true) (DataProvider.mk 7 JsFunction)
             None None (Some "Spinner") None None
             (Nodes [Element ResourceElement None (mkProps (Some "books")) []])
             [])
    = (Mounted (GuesserProps.mk 0 (Some true) (DataProvider.mk 7 JsFunction)
                  None None (Some "Spinner") None None
                  (Nodes [Element ResourceElement None
                            (mkProps (Some "books")) []])
                  [])
               f tree,
       [CallUseDisplayOverrideCode; CallIntrospect 7])
    /\ Tree.ui tree = LoadingElement "Spinner".
Proof.
  destruct (mount_shows_loading_and_fetches_once
              (GuesserProps.mk 0 (Some true) (DataProvider.mk 7 JsFunction)
                 None None (Some "Spinner") None None
                 (Nodes [Element ResourceElement None
                           (mkProps (Some "books")) []])
                 [])
              eq_refl)
    as (f & tree & Hmount & _ & _ & Hui & _).
  exists f, tree. split; [ exact Hmount | exact Hui ].
Defined.

(** ** Invariants of a session *)

(** X5.  In every mounted state a session reaches, [loading] and the
    pending flag have the same value, no updater waits on the error cell,
    and while [loading] is set at least one promise is still to settle:
    the loading page is never shown with nothing to wait for. *)
Theorem loading_means_fetch_in_flight
        (p : GuesserProps.t) (evs : list Event)
        (p' : GuesserProps.t) (f : Fiber.t) (tree : Tree.t) :
  value (session p evs) = Mounted p' f tree ->
  State.loading (Fiber.state f) = State.introspect (Fiber.state f)
  /\ State.errorUpdates (Fiber.state f) = []
  /\ (State.loading (Fiber.state f) = true -> Fiber.pending f <> []).
Proof.
  intros Hreach.
  pose proof (session_awaited p evs) as Ha. rewrite Hreach in Ha.
  destruct Ha as (Hflags & Hpend).
  pose proof (session_committed p evs p' f tree Hreach) as (Hq & _).
  split; [ exact Hflags | ]. split; [ exact Hq | ].
  intros Hload. apply Hpend. now rewrite <- Hflags.
Qed.

Lemma loading_means_fetch_in_flight_witness :
  exists f,
    appState (value (session (propsWith (DataProvider.mk 7 JsFunction))
                             [Settle 0 (Fulfilled
                                          (Payload.mk (Payload.mkData None)));
                              InvokeIntrospect]))
    = Some (Fiber.state f)
    /\ State.loading (Fiber.state f) = true
    /\ Fiber.pending f <> [].
Proof.
  eexists.
  split; [ | split; [ | refine (proj2 (proj2
    (loading_means_fetch_in_flight
       (propsWith (DataProvider.mk 7 JsFunction))
       [Settle 0 (Fulfilled (Payload.mk (Payload.mkData None)));
        InvokeIntrospect]
       _ _ _ eq_refl)) _) ] ]; reflexivity.
Defined.

Lemma AdminResourcesGuesser_loading (p : Props.t) :
  Props.loading p = true ->
  AdminResourcesGuesser p
  = (LoadingElement (default Loading (Props.loadingPage p)),
     [CallUseDisplayOverrideCode]).
Proof.
  intros Hload. unfold AdminResourcesGuesser. now rewrite Hload.
Qed.

Lemma AdminResourcesGuesser_admin (p : Props.t) :
  Props.loading p = false ->
  exists c,
    value (AdminResourcesGuesser p)
    = AdminElement (default AdminUI (Props.admin p))
                   (default Loading (Props.loadingPage p))
                   (Props.rest p) c.
Proof.
  intros Hload.
  destruct (isSingleChildFunction (Props.children p)) eqn:Hfun.
  - rewrite (AdminResourcesGuesser_passthrough p Hload (or_introl Hfun)).
    eexists. reflexivity.
  - destruct (Scan.resources
                (getRoutesAndResourcesFromNodes (Props.children p)))
      as [ | n l ] eqn:Hres.
    + rewrite (AdminResourcesGuesser_guessing p Hload Hfun Hres).
      eexists. reflexivity.
    + rewrite (AdminResourcesGuesser_passthrough p Hload).
      * eexists. reflexivity.
      * right. rewrite Hres. discriminate.
Qed.

(** X6.  In every mounted state a session reaches, the tree on screen is
    what the reconciler returns for the current props and state cells: the
    loading page exactly while [loading] is set, and otherwise the admin
    element, which carries the data provider, the layout, the login page
    and the theme (each defaulted when absent) ahead of the remaining
    props. *)
Theorem view_reflects_state
        (p : GuesserProps.t) (evs : list Event)
        (p' : GuesserProps.t) (f : Fiber.t) (tree : Tree.t) :
  value (session p evs) = Mounted p' f tree ->
  Tree.ui tree
  = value (AdminResourcesGuesser (reconcilerProps p' (Fiber.state f)))
  /\ Tree.dataProvider tree = GuesserProps.dataProvider p'
  /\ (State.loading (Fiber.state f) = true ->
      Tree.ui tree
      = LoadingElement (default Loading (GuesserProps.loading p')))
  /\ (State.loading (Fiber.state f) = false ->
      exists c,
        Tree.ui tree
        = AdminElement
            (default AdminUI (GuesserProps.admin p'))
            (default Loading (GuesserProps.loading p'))
            (("dataProvider",
              PRef (DataProvider.ref (GuesserProps.dataProvider p')))
               :: ("layout",
                   PComponent (default Layout (GuesserProps.layout p')))
               :: ("loginPage",
                   PComponent (default LoginPage (GuesserProps.loginPage p')))
               :: ("theme",
                   PText (default lightTheme (GuesserProps.theme p')))
               :: GuesserProps.rest p')
            c).
Proof.
  intros Hreach.
  pose proof (session_shown p evs) as Hs. rewrite Hreach in Hs.
  destruct Hs as (Hui & Hdp & _).
  split; [ exact Hui | ]. split; [ exact Hdp | ].
  rewrite Hui. split; intros Hload.
  - now rewrite AdminResourcesGuesser_loading.
  - exact (AdminResourcesGuesser_admin
             (reconcilerProps p' (Fiber.state f)) Hload).
Qed.

Lemma view_reflects_state_witness :
  exists tree,
    value (session (propsWith (DataProvider.mk 7 JsFunction))
                   [Settle 0 (Fulfilled (Payload.mk (Payload.mkData None)))])
    = Mounted (propsWith (DataProvider.mk 7 JsFunction))
              (Fiber.mk (State.mk [] false [] false) 0 1 (Some (false, 7))
                        (Some (mkMemo [0; 1] (introspectionContextFactory 2)))
                        [] 3)
              tree
    /\ Tree.dataProvider tree = DataProvider.mk 7 JsFunction.
Proof.
  eexists. split; [ reflexivity | ].
  exact (proj1 (proj2
    (view_reflects_state
       (propsWith (DataProvider.mk 7 JsFunction))
       [Settle 0 (Fulfilled (Payload.mk (Payload.mkData None)))]
       _ _ _ eq_refl))).
Defined.



(** ** Responses *)

Lemma step_fulfil_any (p : GuesserProps.t) (f : Fiber.t) (tree : Tree.t)
      (i : nat) (h : Subscription) (payload : Payload.t) :
  Committed p f tree ->
  typeof (DataProvider.introspect (GuesserProps.dataProvider p)) = "function" ->
  nth_error (Fiber.pending f) i = Some h ->
  let st2 := thenHandler payload (Fiber.state f) in
  let r := AdminResourcesGuesser (reconcilerProps p st2) in
  exists f2,
    step (Mounted p f tree) (Settle i (Fulfilled payload))
    = (Mounted p f2
         (Tree.mk (GuesserProps.dataProvider p) (Tree.introspectionContext tree)
                  (GuesserProps.schemaAnalyzer p) (value r)),
       calls r)
    /\ Fiber.state f2 = st2
    /\ Fiber.pending f2 = removeAt i (Fiber.pending f).
Proof.
  intros Hc Hgood Hnth st2 r.
  pose proof (step_cases p f tree (Settle i (Fulfilled payload)) Hc) as Hstep.
  cbn beta iota in Hstep. rewrite Hnth in Hstep.
  destruct Hstep as (_ & ->). fold st2 r.
  set (g := Fiber.withPending (removeAt i (Fiber.pending f))
                              (Fiber.withState st2 f)).
  destruct (effectDue p g) eqn:Hdue.
  - rewrite (commit_due p g Hdue).
    change (State.introspect (Fiber.state g)) with false.
    rewrite (introspectionEffect_returns _ Hgood). cbn [value calls fst snd].
    rewrite app_nil_r. eexists. split; [ reflexivity | ]. now split.
  - rewrite (commit_not_due p g Hdue). cbn [value calls fst snd].
    rewrite app_nil_r. exists g. split; [ reflexivity | ]. now split.
Qed.

(** X8.  When any promise in flight is fulfilled, be it the latest or one
    from an earlier request, and the data provider is valid: [resources]
    becomes the payload's list (or empty), [loading] is cleared, that
    promise alone leaves the ones in flight, the tree is rendered from the
    new state, and [introspect()] is not called. *)
Theorem any_fulfilment_replaces_resources
        (p : GuesserProps.t) (evs : list Event)
        (p' : GuesserProps.t) (f : Fiber.t) (tree : Tree.t)
        (i : nat) (h : Subscription) (payload : Payload.t) :
  value (session p evs) = Mounted p' f tree ->
  typeof (DataProvider.introspect (GuesserProps.dataProvider p')) = "function" ->
  nth_error (Fiber.pending f) i = Some h ->
  exists f2 tree2 log,
    step (Mounted p' f tree) (Settle i (Fulfilled payload))
    = (Mounted p' f2 tree2, log)
    /\ State.resources (Fiber.state f2)
       = nullish (Payload.resources (Payload.data payload)) []
    /\ State.loading (Fiber.state f2) = false
    /\ Fiber.pending f2 = removeAt i (Fiber.pending f)
    /\ Tree.ui tree2
       = value (AdminResourcesGuesser (reconcilerProps p' (Fiber.state f2)))
    /\ introspectCalls log = 0.
Proof.
  intros Hreach Hgood Hnth.
  pose proof (session_committed p evs p' f tree Hreach) as Hc.
  destruct (step_fulfil_any p' f tree i h payload Hc Hgood Hnth)
    as (f2 & Hstep & Hst & Hpend).
  do 3 eexists. split; [ exact Hstep | ].
  rewrite Hst. repeat split; try assumption.
  apply AdminResourcesGuesser_no_introspect.
Qed.

Lemma any_fulfilment_replaces_resources_witness :
  exists f2 tree2 log,
    step (value (session (propsWith (DataProvider.mk 7 JsFunction))
                         [Rerender (propsWith (DataProvider.mk 9 JsFunction))]))
         (Settle 0 (Fulfilled
                      (Payload.mk
                         (Payload.mkData (Some [mkResource "books" None])))))
    = (Mounted (propsWith (DataProvider.mk 9 JsFunction)) f2 tree2, log)
    /\ State.resources (Fiber.state f2) = [mkResource "books" None]
    /\ State.loading (Fiber.state f2) = false
    /\ Fiber.pending f2 = [effectSubscription].
Proof.
  destruct (any_fulfilment_replaces_resources
              (propsWith (DataProvider.mk 7 JsFunction))
              [Rerender (propsWith (DataProvider.mk 9 JsFunction))]
              _ _ _ 0 effectSubscription
              (Payload.mk (Payload.mkData (Some [mkResource "books" None])))
              eq_refl eq_refl eq_refl)
    as (f2 & tree2 & log & Hstep & Hres & Hload & Hpend & _).
  exists f2, tree2, log. repeat split; assumption.
Defined.

(** X9.  Nothing orders the responses: when two promises in flight are
    fulfilled one after the other, the state ends with the resources of the
    one fulfilled last, whichever was requested first. *)
Theorem last_fulfilment_wins
        (p : GuesserProps.t) (evs : list Event)
        (p' : GuesserProps.t) (f : Fiber.t) (tree : Tree.t)
        (i j : nat) (h h' : Subscription) (first second : Payload.t) :
  value (session p evs) = Mounted p' f tree ->
  typeof (DataProvider.introspect (GuesserProps.dataProvider p')) = "function" ->
  nth_error (Fiber.pending f) i = Some h ->
  nth_error (removeAt i (Fiber.pending f)) j = Some h' ->
  exists st,
    appState
      (value (step (value (step (Mounted p' f tree)
                                (Settle i (Fulfilled first))))
                   (Settle j (Fulfilled second))))
    = Some st
    /\ State.resources st
       = nullish (Payload.resources (Payload.data second)) []
    /\ State.loading st = false.
Proof.
  intros Hreach Hgood Hi Hj.
  pose proof (session_committed p evs p' f tree Hreach) as Hc.
  pose proof (step_consistent (Mounted p' f tree)
                (Settle i (Fulfilled first)) Hc) as Hc1.
  destruct (step_fulfil_any p' f tree i h first Hc Hgood Hi)
    as (f1 & Hstep1 & _ & Hpend1).
  rewrite Hstep1 in Hc1 |- *. cbn [value fst] in Hc1 |- *.
  rewrite <- Hpend1 in Hj.
  destruct (step_fulfil_any p' f1 _ j h' second Hc1 Hgood Hj)
    as (f2 & Hstep2 & Hst2 & _).
  rewrite Hstep2. cbn [value fst appState].
  eexists. split; [ reflexivity | ]. rewrite Hst2. now split.
Qed.

Lemma last_fulfilment_wins_witness :
  exists st,
    appState
      (value
         (step
            (value
               (step
                  (value (session
                            (propsWith (DataProvider.mk 7 JsFunction))
                            [Rerender (propsWith (DataProvider.mk 9 JsFunction))]))
                  (Settle 1 (Fulfilled
                               (Payload.mk
                                  (Payload.mkData
                                     (Some [mkResource "new" None])))))))
            (Settle 0 (Fulfilled
                         (Payload.mk
                            (Payload.mkData
                               (Some [mkResource "old" None])))))))
    = Some st
    /\ State.resources st = [mkResource "old" None]
    /\ State.loading st = false.
Proof.
  exact (last_fulfilment_wins
           (propsWith (DataProvider.mk 7 JsFunction))
           [Rerender (propsWith (DataProvider.mk 9 JsFunction))]
           _ _ _ 1 0 effectSubscription effectSubscription
           (Payload.mk (Payload.mkData (Some [mkResource "new" None])))
           (Payload.mk (Payload.mkData (Some [mkResource "old" None])))
           eq_refl eq_refl eq_refl eq_refl).
Defined.

(** X10.  No response makes a request: whatever state a session has
    reached and however a promise settles, handling it never calls
    [introspect()]. *)
Theorem settling_never_fetches
        (p : GuesserProps.t) (evs : list Event) (i : nat) (s : Settlement) :
  introspectCalls (calls (step (value (session p evs)) (Settle i s))) = 0.
Proof.
  pose proof (session_consistent p evs) as Hc.
  destruct (value (session p evs)) as [ p' f tree | e ]; [ | reflexivity ].
  pose proof (step_cases p' f tree (Settle i s) Hc) as Hstep.
  cbn beta iota in Hstep.
  destruct s as [ payload | E ];
    destruct (nth_error (Fiber.pending f) i);
    try (rewrite Hstep; reflexivity).
  rewrite (rendersFrom_calls _ _ _ _ _ _ Hstep).
  now apply commit_no_fetch.
Qed.

(** ** Renders from the parent *)

Lemma Fiber_eta (f : Fiber.t) :
  Fiber.withPending (Fiber.pending f) (Fiber.withState (Fiber.state f) f) = f.
Proof. now destruct f. Qed.

(** X11.  A render from the parent that brings the same data-provider
    object changes nothing on the fiber and calls [introspect()] not at
    all, in any reached state: only the tree is rebuilt, around the same
    capability. *)
Theorem rerender_same_provider_does_nothing
        (p : GuesserProps.t) (evs : list Event)
        (p' : GuesserProps.t) (f : Fiber.t) (tree : Tree.t)
        (q : GuesserProps.t) :
  value (session p evs) = Mounted p' f tree ->
  DataProvider.ref (GuesserProps.dataProvider q)
  = DataProvider.ref (GuesserProps.dataProvider p') ->
  exists tree',
    step (Mounted p' f tree) (Rerender q)
    = (Mounted q f tree',
       calls (AdminResourcesGuesser (reconcilerProps q (Fiber.state f))))
    /\ introspectCalls
         (calls (AdminResourcesGuesser (reconcilerProps q (Fiber.state f))))
       = 0
    /\ Tree.introspectionContext tree' = Tree.introspectionContext tree.
Proof.
  intros Hreach Href.
  pose proof (session_committed p evs p' f tree Hreach) as Hc.
  pose proof (step_cases p' f tree (Rerender q) Hc) as (_ & Hstep).
  rewrite Hstep, Fiber_eta.
  assert (Hdue : effectDue q f = false).
  { apply effectDue_false. destruct Hc as (_ & -> & _).
    unfold effectDepsOf. now rewrite Href. }
  rewrite (commit_not_due q f Hdue). cbn [value calls fst snd].
  rewrite app_nil_r. eexists. split; [ reflexivity | ].
  split; [ apply AdminResourcesGuesser_no_introspect | reflexivity ].
Qed.

Lemma rerender_same_provider_does_nothing_witness :
  exists tree',
    step (value (session (propsWith (DataProvider.mk 7 JsFunction)) []))
         (Rerender (GuesserProps.mk 1 (Some true) (DataProvider.mk 7 JsFunction)
                      None None None None None (Nodes [Text "x"]) []))
    = (Mounted (GuesserProps.mk 1 (Some true) (DataProvider.mk 7 JsFunction)
                  None None None None None (Nodes [Text "x"]) [])
               (Fiber.mk State.initial 0 1 (Some (true, 7))
                  (Some (mkMemo [0; 1] (introspectionContextFactory 2)))
                  [effectSubscription] 3)
               tree',
       [CallUseDisplayOverrideCode]).
Proof.
  destruct (rerender_same_provider_does_nothing
              (propsWith (DataProvider.mk 7 JsFunction)) []
              _ _ _
              (GuesserProps.mk 1 (Some true) (DataProvider.mk 7 JsFunction)
                 None None None None None (Nodes [Text "x"]) [])
              eq_refl eq_refl)
    as (tree' & Hstep & _).
  exists tree'. exact Hstep.
Defined.

(** X12.  Once a fetch has completed, a render that brings another valid
    data provider does not introspect it: the effect runs and returns at
    the pending-flag test, the state cells keep the resources of the
    earlier provider, and only the tree's data-provider context changes. *)
Theorem new_provider_after_load_is_not_introspected
        (p : GuesserProps.t) (evs : list Event)
        (p' : GuesserProps.t) (f : Fiber.t) (tree : Tree.t)
        (q : GuesserProps.t) :
  value (session p evs) = Mounted p' f tree ->
  State.loading (Fiber.state f) = false ->
  typeof (DataProvider.introspect (GuesserProps.dataProvider q)) = "function" ->
  exists f' tree',
    step (Mounted p' f tree) (Rerender q)
    = (Mounted q f' tree',
       calls (AdminResourcesGuesser (reconcilerProps q (Fiber.state f))))
    /\ Fiber.state f' = Fiber.state f
    /\ Fiber.pending f' = Fiber.pending f
    /\ Tree.dataProvider tree' = GuesserProps.dataProvider q
    /\ Tree.ui tree'
       = value (AdminResourcesGuesser (reconcilerProps q (Fiber.state f)))
    /\ introspectCalls
         (calls (AdminResourcesGuesser (reconcilerProps q (Fiber.state f))))
       = 0.
Proof.
  intros Hreach Hload Hgood.
  pose proof (session_committed p evs p' f tree Hreach) as Hc.
  pose proof (session_awaited p evs) as Ha. rewrite Hreach in Ha.
  destruct Ha as (Hflags & _). rewrite Hload in Hflags. symmetry in Hflags.
  pose proof (step_cases p' f tree (Rerender q) Hc) as (_ & Hstep).
  rewrite Hstep, Fiber_eta.
  destruct (effectDue q f) eqn:Hdue.
  - rewrite (commit_due q f Hdue), Hflags.
    rewrite (introspectionEffect_returns _ Hgood). cbn [value calls fst snd].
    rewrite app_nil_r. do 2 eexists. split; [ reflexivity | ].
    repeat split. apply AdminResourcesGuesser_no_introspect.
  - rewrite (commit_not_due q f Hdue). cbn [value calls fst snd].
    rewrite app_nil_r. do 2 eexists. split; [ reflexivity | ].
    repeat split. apply AdminResourcesGuesser_no_introspect.
Qed.

Lemma new_provider_after_load_is_not_introspected_witness :
  exists f' tree',
    step (value (session
                   (propsWith (DataProvider.mk 7 JsFunction))
                   [Settle 0 (Fulfilled
                      (Payload.mk
                         (Payload.mkData (Some [mkResource "books" None]))))]))
         (Rerender (propsWith (DataProvider.mk 9 JsFunction)))
    = (Mounted (propsWith (DataProvider.mk 9 JsFunction)) f' tree',
       calls (AdminResourcesGuesser
                (reconcilerProps
                   (propsWith (DataProvider.mk 9 JsFunction))
                   (State.mk [mkResource "books" None] false [] false))))
    /\ Fiber.state f' = State.mk [mkResource "books" None] false [] false
    /\ Fiber.pending f' = [].
Proof.
  destruct (new_provider_after_load_is_not_introspected
              (propsWith (DataProvider.mk 7 JsFunction))
              [Settle 0 (Fulfilled
                 (Payload.mk
                    (Payload.mkData (Some [mkResource "books" None]))))]
              _ _ _
              (propsWith (DataProvider.mk 9 JsFunction))
              eq_refl eq_refl eq_refl)
    as (f' & tree' & Hstep & Hst & Hpend & _).
  exists f', tree'. repeat split; assumption.
Defined.

(** X13.  While a fetch is in flight, a render that brings a different,
    valid data provider calls [introspect()] once on the new provider and
    keeps the earlier promise among those in flight: nothing is cancelled,
    and the loading page stays. *)
Theorem new_provider_while_loading_fetches_again
        (p : GuesserProps.t) (evs : list Event)
        (p' : GuesserProps.t) (f : Fiber.t) (tree : Tree.t)
        (q : GuesserProps.t) :
  value (session p evs) = Mounted p' f tree ->
  State.loading (Fiber.state f) = true ->
  typeof (DataProvider.introspect (GuesserProps.dataProvider q)) = "function" ->
  DataProvider.ref (GuesserProps.dataProvider q)
  <> DataProvider.ref (GuesserProps.dataProvider p') ->
  exists f' tree',
    step (Mounted p' f tree) (Rerender q)
    = (Mounted q f' tree',
       [CallUseDisplayOverrideCode;
        CallIntrospect (DataProvider.ref (GuesserProps.dataProvider q))])
    /\ Fiber.state f' = Fiber.state f
    /\ Fiber.pending f' = Fiber.pending f ++ [effectSubscription]
    /\ Tree.ui tree'
       = LoadingElement (default Loading (GuesserProps.loading q)).
Proof.
  intros Hreach Hload Hgood Href.
  pose proof (session_committed p evs p' f tree Hreach) as Hc.
  pose proof (session_awaited p evs) as Ha. rewrite Hreach in Ha.
  destruct Ha as (Hflags & _). rewrite Hload in Hflags. symmetry in Hflags.
  pose proof (step_cases p' f tree (Rerender q) Hc) as (_ & Hstep).
  rewrite Hstep, Fiber_eta.
  assert (Hdue : effectDue q f = true).
  { destruct Hc as (_ & Hdeps & _). unfold effectDue. rewrite Hdeps.
    apply negb_true_iff. apply not_true_is_false. intros Heq.
    apply effectDeps_eqb_eq in Heq. unfold effectDepsOf in Heq.
    inversion Heq. congruence. }
  rewrite (commit_due q f Hdue), Hflags.
  rewrite (introspectionEffect_fetches _ Hgood). cbn [value calls fst snd].
  rewrite (AdminResourcesGuesser_loading (reconcilerProps q (Fiber.state f)) Hload).
  cbn [value calls fst snd app].
  do 2 eexists. split; [ reflexivity | ]. repeat split.
Qed.

Lemma new_provider_while_loading_fetches_again_witness :
  exists f' tree',
    step (value (session (propsWith (DataProvider.mk 7 JsFunction)) []))
         (Rerender (propsWith (DataProvider.mk 9 JsFunction)))
    = (Mounted (propsWith (DataProvider.mk 9 JsFunction)) f' tree',
       [CallUseDisplayOverrideCode; CallIntrospect 9])
    /\ Fiber.pending f' = [effectSubscription; effectSubscription].
Proof.
  destruct (new_provider_while_loading_fetches_again
              (propsWith (DataProvider.mk 7 JsFunction)) []
              _ _ _
              (propsWith (DataProvider.mk 9 JsFunction))
              eq_refl eq_refl eq_refl)
    as (f' & tree' & Hstep & _ & Hpend & _).
  - simpl. discriminate.
  - exists f', tree'. split; assumption.
Defined.

(** ** The capability *)

(** X14.  Invoking the capability while a fetch is already in flight
    starts no second one: the state cells and the promises in flight stay
    as they are, [introspect()] is not called, and the loading page stays
    on screen. *)
Theorem invoking_while_loading_does_not_refetch
        (p : GuesserProps.t) (evs : list Event)
        (p' : GuesserProps.t) (f : Fiber.t) (tree : Tree.t) :
  value (session p evs) = Mounted p' f tree ->
  State.loading (Fiber.state f) = true ->
  exists tree',
    step (Mounted p' f tree) InvokeIntrospect
    = (Mounted p' f tree', [CallUseDisplayOverrideCode])
    /\ Tree.ui tree'
       = LoadingElement (default Loading (GuesserProps.loading p'))
    /\ Tree.introspectionContext tree' = Tree.introspectionContext tree.
Proof.
  intros Hreach Hload.
  pose proof (session_committed p evs p' f tree Hreach) as Hc.
  pose proof (session_awaited p evs) as Ha. rewrite Hreach in Ha.
  destruct Ha as (Hflags & _). rewrite Hload in Hflags. symmetry in Hflags.
  pose proof (step_cases p' f tree InvokeIntrospect Hc) as (_ & Hstep).
  assert (Hst : setIntrospect true (setLoading true (Fiber.state f))
                = Fiber.state f).
  { destruct (Fiber.state f) as [ rs ld q fl ]. simpl in Hload, Hflags.
    now subst. }
  rewrite Hstep, Hst, Fiber_eta.
  assert (Hdue : effectDue p' f = false).
  { apply effectDue_false. now destruct Hc as (_ & -> & _). }
  rewrite (commit_not_due p' f Hdue).
  rewrite (AdminResourcesGuesser_loading
             (reconcilerProps p' (Fiber.state f)) Hload).
  cbn [value calls fst snd app].
  eexists. split; [ reflexivity | ]. now split.
Qed.

Lemma invoking_while_loading_does_not_refetch_witness :
  exists tree',
    step (value (session (propsWith (DataProvider.mk 7 JsFunction)) []))
         InvokeIntrospect
    = (Mounted (propsWith (DataProvider.mk 7 JsFunction))
               (Fiber.mk State.initial 0 1 (Some (true, 7))
                  (Some (mkMemo [0; 1] (introspectionContextFactory 2)))
                  [effectSubscription] 3)
               tree',
       [CallUseDisplayOverrideCode]).
Proof.
  destruct (invoking_while_loading_does_not_refetch
              (propsWith (DataProvider.mk 7 JsFunction)) []
              _ _ _ eq_refl eq_refl)
    as (tree' & Hstep & _).
  exists tree'. exact Hstep.
Defined.

Lemma step_capability (p : GuesserProps.t) (f : Fiber.t) (tree : Tree.t)
      (ev : Event) (q : GuesserProps.t) (g : Fiber.t) (t : Tree.t) :
  Committed p f tree ->
  value (step (Mounted p f tree) ev) = Mounted q g t ->
  Tree.introspectionContext t = Tree.introspectionContext tree.
Proof.
  intros Hc Hv.
  pose proof (step_cases p f tree ev Hc) as Hstep.
  assert (Hrender :
            forall q' st pend,
              rendersFrom q' f tree st pend (step (Mounted p f tree) ev) ->
              Tree.introspectionContext t = Tree.introspectionContext tree).
  { intros q' st pend Hr.
    destruct (rendersFrom_mounted _ _ _ _ _ _ _ _ _ Hr Hv)
      as (_ & _ & _ & _ & ->).
    reflexivity. }
  destruct ev as [ q' | i [ payload | E ] | ].
  - exact (Hrender _ _ _ Hstep).
  - destruct (nth_error (Fiber.pending f) i).
    + exact (Hrender _ _ _ Hstep).
    + rewrite Hstep in Hv. now inversion Hv.
  - destruct (nth_error (Fiber.pending f) i).
    + rewrite Hstep in Hv. discriminate.
    + rewrite Hstep in Hv. now inversion Hv.
  - exact (Hrender _ _ _ Hstep).
Qed.

Lemma run_capability (more : list Event) :
  forall (p : GuesserProps.t) (f : Fiber.t) (tree : Tree.t)
         (q : GuesserProps.t) (g : Fiber.t) (t : Tree.t),
    Committed p f tree ->
    value (run (Mounted p f tree) more) = Mounted q g t ->
    Tree.introspectionContext t = Tree.introspectionContext tree.
Proof.
  induction more as [ | ev more IH ]; intros p f tree q g t Hc Hv.
  - simpl in Hv. now inversion Hv.
  - cbn [run] in Hv. rewrite bind_value in Hv.
    pose proof (step_consistent (Mounted p f tree) ev Hc) as Hc1.
    destruct (value (step (Mounted p f tree) ev)) as [ p1 f1 t1 | e ] eqn:Hs.
    + rewrite (IH p1 f1 t1 q g t Hc1 Hv).
      exact (step_capability p f tree ev p1 f1 t1 Hc Hs).
    + rewrite run_Fallback in Hv. discriminate.
Qed.

(** X15.  The capability published in the context is one and the same
    object for as long as the component stays mounted: between any two
    mounted states of a session, whatever renders, responses and
    invocations lie between them, the tree carries the same capability. *)
Theorem capability_is_stable_for_life
        (p : GuesserProps.t) (evs more : list Event)
        (p1 : GuesserProps.t) (f1 : Fiber.t) (t1 : Tree.t)
        (p2 : GuesserProps.t) (f2 : Fiber.t) (t2 : Tree.t) :
  value (session p evs) = Mounted p1 f1 t1 ->
  value (session p (evs ++ more)) = Mounted p2 f2 t2 ->
  Tree.introspectionContext t2 = Tree.introspectionContext t1
  /\ Capability.ref (Tree.introspectionContext t2)
     = Capability.ref (Tree.introspectionContext t1).
Proof.
  intros H1 H2.
  pose proof (session_committed p evs p1 f1 t1 H1) as Hc.
  rewrite session_app, H1 in H2.
  pose proof (run_capability more p1 f1 t1 p2 f2 t2 Hc H2) as Heq.
  split; [ exact Heq | now rewrite Heq ].
Qed.

Lemma capability_is_stable_for_life_witness :
  appCapability
    (value (session (propsWith (DataProvider.mk 7 JsFunction))
                    ([] ++ [Settle 0 (Fulfilled
                                        (Payload.mk (Payload.mkData None)));
                            Rerender (propsWith (DataProvider.mk 9 JsFunction));
                            InvokeIntrospect])))
  = appCapability
      (value (session (propsWith (DataProvider.mk 7 JsFunction)) [])).
Proof.
  exact (f_equal Some
           (proj2 (capability_is_stable_for_life
                     (propsWith (DataProvider.mk 7 JsFunction))
                     []
                     [Settle 0 (Fulfilled (Payload.mk (Payload.mkData None)));
                      Rerender (propsWith (DataProvider.mk 9 JsFunction));
                      InvokeIntrospect]
                     _ _ _ _ _ _ eq_refl eq_refl))).
Defined.
